(** * my-note: item list, reconciliation, drag reordering and undo history

    A shallow embedding of the state-carrying part of [note.py]: the
    [NoteWindow] fields [data], [todo_widgets], [_dragging_widget],
    [_history], [_history_index], and the [TodoItem] fields the handlers
    read and write.  Python objects that are shared by reference (the item
    dicts inside [data['items']], which every [TodoItem] aliases through
    [item_data], and the [TodoItem] objects themselves) live in two
    append-only object stores; lists hold addresses. *)

From stdpp Require Import base numbers list strings.

Local Open Scope Z_scope.

(** ** Persisted values *)

(** A JSON float is passed through untouched by every handler; it is kept
    as the bit pattern of the IEEE-754 double. *)
Definition pyfloat : Type := Z.

(** One element of [data['items']]: keys [id], [text], [completed],
    [created_at]. *)
Record Item : Type := mkItem {
  item_id : Z;
  item_text : string;
  item_completed : bool;
  item_created_at : string
}.

(** [data['window']]. *)
Record Window : Type := mkWindow {
  win_x : Z; win_y : Z; win_width : Z; win_height : Z
}.

(** [data['settings']]. *)
Record Settings : Type := mkSettings {
  mode : string;
  visibility_mode : string;
  font_size : Z;
  opacity_focused : pyfloat;
  opacity_unfocused : pyfloat
}.

(** A detached document value: what [json.loads(json.dumps(self.data))]
    returns, what [DataManager.load] returns and what [DataManager.save]
    writes. *)
Record Document : Type := mkDocument {
  items : list Item;
  window : Window;
  settings : Settings
}.

#[global] Instance Item_eq_dec : EqDecision Item.
Proof. solve_decision. Defined.
#[global] Instance Window_eq_dec : EqDecision Window.
Proof. solve_decision. Defined.
#[global] Instance Settings_eq_dec : EqDecision Settings.
Proof. solve_decision. Defined.
#[global] Instance Document_eq_dec : EqDecision Document.
Proof. solve_decision. Defined.

#[global] Instance Item_inhabited : Inhabited Item :=
  populate (mkItem 0 "" false "").

(** [Config.DEFAULT_CONFIG]; 1.0 and 0.7 as doubles. *)
Definition DEFAULT_CONFIG : Document :=
  mkDocument []
    (mkWindow 100 100 320 450)
    (mkSettings "topmost" "always_visible" 13
       4607182418800017408 4604480259023595110).

(** ** Object stores *)

(** Address of an item dict. *)
Definition loc : Type := nat.
(** Address of a [TodoItem] widget object. *)
Definition wref : Type := nat.

(** The fields of a [TodoItem] that the handlers use.  [text_entry] is the
    content of the Tk text widget, [get('1.0', 'end-1c')]. *)
Record TodoItem : Type := mkTodoItem {
  item_data : loc;
  w_font_size : Z;
  text_entry : string;
  _is_dragging : bool
}.

#[global] Instance TodoItem_inhabited : Inhabited TodoItem :=
  populate (mkTodoItem 0%nat 13 "" false).

(** ** Observable effects, in program order *)

(** What the pack geometry manager is asked to place: an item row or the
    trailing placeholder. *)
Inductive PackSlave : Type :=
  | SlaveItem (w : wref)
  | SlavePlaceholder.

Inductive Effect : Type :=
  | EvCreate (w : wref) (id : Z)        (* TodoItem(...) constructed *)
  | EvDestroy (w : wref)                (* widget.destroy() *)
  | EvPackForget (p : PackSlave)        (* pack_forget() *)
  | EvPack (p : PackSlave) (before : option PackSlave)  (* pack(before=...) *)
  | EvSave (d : Document).              (* DataManager.save(self.data) *)

#[global] Instance PackSlave_eq_dec : EqDecision PackSlave.
Proof. solve_decision. Defined.
#[global] Instance Effect_eq_dec : EqDecision Effect.
Proof. solve_decision. Defined.

(** ** The window object *)

Record NoteWindow : Type := mkNoteWindow {
  item_heap : list Item;            (* item dict objects, by address *)
  widget_heap : list TodoItem;      (* TodoItem objects, by address *)
  data_items : list loc;            (* self.data['items'] *)
  data_window : Window;             (* self.data['window'] *)
  data_settings : Settings;         (* self.data['settings'] *)
  todo_widgets : list wref;         (* self.todo_widgets *)
  _dragging_widget : option wref;   (* self._dragging_widget *)
  _history : list Document;         (* self._history *)
  _history_index : Z;               (* self._history_index *)
  trace : list Effect               (* effects performed so far *)
}.

Definition MAX_HISTORY_SIZE : Z := 20.

(** Field updates. *)
Definition set_item_heap (h : list Item) (s : NoteWindow) : NoteWindow :=
  mkNoteWindow h (widget_heap s) (data_items s) (data_window s)
    (data_settings s) (todo_widgets s) (_dragging_widget s) (_history s)
    (_history_index s) (trace s).
Definition set_widget_heap (h : list TodoItem) (s : NoteWindow) : NoteWindow :=
  mkNoteWindow (item_heap s) h (data_items s) (data_window s)
    (data_settings s) (todo_widgets s) (_dragging_widget s) (_history s)
    (_history_index s) (trace s).
Definition set_data_items (l : list loc) (s : NoteWindow) : NoteWindow :=
  mkNoteWindow (item_heap s) (widget_heap s) l (data_window s)
    (data_settings s) (todo_widgets s) (_dragging_widget s) (_history s)
    (_history_index s) (trace s).
Definition set_data_window (w : Window) (s : NoteWindow) : NoteWindow :=
  mkNoteWindow (item_heap s) (widget_heap s) (data_items s) w
    (data_settings s) (todo_widgets s) (_dragging_widget s) (_history s)
    (_history_index s) (trace s).
Definition set_data_settings (g : Settings) (s : NoteWindow) : NoteWindow :=
  mkNoteWindow (item_heap s) (widget_heap s) (data_items s) (data_window s)
    g (todo_widgets s) (_dragging_widget s) (_history s)
    (_history_index s) (trace s).
Definition set_todo_widgets (l : list wref) (s : NoteWindow) : NoteWindow :=
  mkNoteWindow (item_heap s) (widget_heap s) (data_items s) (data_window s)
    (data_settings s) l (_dragging_widget s) (_history s)
    (_history_index s) (trace s).
Definition set_dragging_widget (d : option wref) (s : NoteWindow) : NoteWindow :=
  mkNoteWindow (item_heap s) (widget_heap s) (data_items s) (data_window s)
    (data_settings s) (todo_widgets s) d (_history s)
    (_history_index s) (trace s).
Definition set_history (h : list Document) (s : NoteWindow) : NoteWindow :=
  mkNoteWindow (item_heap s) (widget_heap s) (data_items s) (data_window s)
    (data_settings s) (todo_widgets s) (_dragging_widget s) h
    (_history_index s) (trace s).
Definition set_history_index (i : Z) (s : NoteWindow) : NoteWindow :=
  mkNoteWindow (item_heap s) (widget_heap s) (data_items s) (data_window s)
    (data_settings s) (todo_widgets s) (_dragging_widget s) (_history s)
    i (trace s).
Definition emit (es : list Effect) (s : NoteWindow) : NoteWindow :=
  mkNoteWindow (item_heap s) (widget_heap s) (data_items s) (data_window s)
    (data_settings s) (todo_widgets s) (_dragging_widget s) (_history s)
    (_history_index s) (trace s ++ es).

(** Dereferencing. *)
Definition item_at (s : NoteWindow) (l : loc) : Item := item_heap s !!! l.
Definition widget_at (s : NoteWindow) (w : wref) : TodoItem := widget_heap s !!! w.

(** [w.item_data['id']]. *)
Definition widget_item_id (s : NoteWindow) (w : wref) : Z :=
  item_id (item_at s (item_data (widget_at s w))).

(** [[item['id'] for item in self.data['items']]]. *)
Definition ids (s : NoteWindow) : list Z :=
  map (fun l => item_id (item_at s l)) (data_items s).

(** [json.loads(json.dumps(self.data))]: the live document read out as a
    detached value. *)
Definition snapshot (s : NoteWindow) : Document :=
  mkDocument (map (item_at s) (data_items s)) (data_window s) (data_settings s).

(** [self.data = <detached document>]: every item of the copy is a fresh
    dict. *)
Definition set_data (d : Document) (s : NoteWindow) : NoteWindow :=
  set_data_settings (settings d)
    (set_data_window (window d)
       (set_data_items (seq (length (item_heap s)) (length (items d)))
          (set_item_heap (item_heap s ++ items d) s))).

(** ** Python list and dict operations used by the handlers *)

(** [l[:stop]]; a negative [stop] counts from the end. *)
Definition py_slice_to {A : Type} (l : list A) (stop : Z) : list A :=
  if decide (stop < 0)
  then take (Z.to_nat (Z.of_nat (length l) + stop)) l
  else take (Z.to_nat stop) l.

(** [l[i]]; [None] stands for [IndexError]. *)
Definition py_index {A : Type} (l : list A) (i : Z) : option A :=
  if decide (i < 0)
  then (if decide (Z.of_nat (length l) + i < 0) then None
        else l !! Z.to_nat (Z.of_nat (length l) + i))
  else l !! Z.to_nat i.

(** [l.index(x)]; [None] stands for [ValueError].  Also the index found by
    the loops [for i, y in enumerate(l): if y == x: ...; break]. *)
Fixpoint index_of {A : Type} `{EqDecision A} (x : A) (l : list A) : option nat :=
  match l with
  | [] => None
  | y :: l' => if decide (y = x) then Some 0%nat else S <$> index_of x l'
  end.

(** [l.insert(i, x)] for [i >= 0]; an index past the end appends. *)
Definition py_insert {A : Type} (i : nat) (x : A) (l : list A) : list A :=
  take i l ++ x :: drop i l.

(** [l.remove(x)]: the first occurrence goes. *)
Fixpoint py_remove {A : Type} `{EqDecision A} (x : A) (l : list A) : list A :=
  match l with
  | [] => []
  | y :: l' => if decide (y = x) then l' else y :: py_remove x l'
  end.

(** [max(l, default=d)]. *)
Definition py_max_default (l : list Z) (d : Z) : Z :=
  match l with
  | [] => d
  | x :: l' => fold_left Z.max l' x
  end.

(** A dict in insertion order, as [existing_widgets] in [_load_items]. *)
Fixpoint dict_set (k : Z) (v : wref) (d : list (Z * wref)) : list (Z * wref) :=
  match d with
  | [] => [(k, v)]
  | (k', v') :: d' =>
      if decide (k' = k) then (k', v) :: d' else (k', v') :: dict_set k v d'
  end.

Fixpoint dict_get (k : Z) (d : list (Z * wref)) : option wref :=
  match d with
  | [] => None
  | (k', v') :: d' => if decide (k' = k) then Some v' else dict_get k d'
  end.

Fixpoint dict_pop (k : Z) (d : list (Z * wref)) : list (Z * wref) :=
  match d with
  | [] => []
  | (k', v') :: d' => if decide (k' = k) then d' else (k', v') :: dict_pop k d'
  end.

(** ** [TodoItem.update_item_data] and widget construction *)

(** [widget.update_item_data(new_item_data, font_size=...)] for the widget at
    [self]: rebinds [item_data], takes the new font size, replaces the text
    shown when it differs.  The redraws it triggers are not state. *)
Definition update_item_data (self : wref) (new_item_data : loc)
    (fs : option Z) (s : NoteWindow) : NoteWindow :=
  let old := widget_at s self in
  let fs' :=
    match fs with
    | Some f => if decide (f ≠ w_font_size old) then f else w_font_size old
    | None => w_font_size old
    end in
  let new_text := item_text (item_at s new_item_data) in
  let current_text := text_entry old in
  let shown := if decide (current_text ≠ new_text) then new_text else current_text in
  set_widget_heap
    (<[self := mkTodoItem new_item_data fs' shown (_is_dragging old)]> (widget_heap s)) s.

(** [NoteWindow._create_todo_widget(item_data, pack)]. *)
Definition _create_todo_widget (new_item_data : loc) (pack : bool)
    (s : NoteWindow) : wref * NoteWindow :=
  let todo := length (widget_heap s) in
  let obj := mkTodoItem new_item_data (font_size (data_settings s))
               (item_text (item_at s new_item_data)) false in
  let s1 := emit [EvCreate todo (item_id (item_at s new_item_data))]
              (set_widget_heap (widget_heap s ++ [obj]) s) in
  (todo, if pack then emit [EvPack (SlaveItem todo) None] s1 else s1).

(** ** [NoteWindow._load_items] *)

(** The local variables of [_load_items] while it walks [data['items']]. *)
Record LoadLoop : Type := mkLoadLoop {
  existing_widgets : list (Z * wref);
  new_widgets_list : list wref;
  newly_created_widgets : list wref;
  win : NoteWindow
}.

(** Step 3, one iteration of [for item_data in self.data['items']]. *)
Definition load_step (a : LoadLoop) (it : loc) : LoadLoop :=
  let id := item_id (item_at (win a) it) in
  match dict_get id (existing_widgets a) with
  | Some widget =>
      mkLoadLoop (dict_pop id (existing_widgets a))
        (new_widgets_list a ++ [widget])
        (newly_created_widgets a)
        (update_item_data widget it (Some (font_size (data_settings (win a)))) (win a))
  | None =>
      let cw := _create_todo_widget it false (win a) in
      mkLoadLoop (existing_widgets a)
        (new_widgets_list a ++ [cw.1])
        (newly_created_widgets a ++ [cw.1])
        cw.2
  end.

(** Steps 1 to 3. *)
Definition load_loop (s : NoteWindow) : LoadLoop :=
  fold_left load_step (data_items s)
    (mkLoadLoop
       (fold_left (fun d w => dict_set (widget_item_id s w) w d) (todo_widgets s) [])
       [] [] s).

(** The first [todo_widgets[i]], [i] from [start], that is not newly
    created: the [next_packed] search of step 7. *)
Fixpoint first_not_created (created : list wref) (ws : list wref) : option wref :=
  match ws with
  | [] => None
  | w :: ws' => if decide (w ∉ created) then Some w else first_not_created created ws'
  end.

Definition next_packed (created : list wref) (start : nat) (ws : list wref) : option wref :=
  first_not_created created (drop start ws).

(** Step 7, partial-creation branch, one [new_widget]. *)
Definition pack_new_widget (created : list wref) (s : NoteWindow) (new_widget : wref) : NoteWindow :=
  match index_of new_widget (todo_widgets s) with
  | None => s
  | Some index =>
      if decide (index = 0%nat) then
        match next_packed created 1 (todo_widgets s) with
        | Some np => emit [EvPack (SlaveItem new_widget) (Some (SlaveItem np))] s
        | None => emit [EvPack (SlaveItem new_widget) None] s
        end
      else if decide (index = (length (todo_widgets s) - 1)%nat) then
        emit [EvPack (SlaveItem new_widget) None] s
      else
        match next_packed created (index + 1) (todo_widgets s) with
        | Some np => emit [EvPack (SlaveItem new_widget) (Some (SlaveItem np))] s
        | None => emit [EvPack (SlaveItem new_widget) None] s
        end
  end.

(** What [_load_items] computed: kept for the statements about one pass. *)
Record LoadReport : Type := mkLoadReport {
  created : list wref;
  destroyed : list wref;
  order_changed : bool
}.

Definition load_report (s : NoteWindow) : LoadReport :=
  let a := load_loop s in
  let deleted_widgets := map snd (existing_widgets a) in
  let old_ids := map (widget_item_id (win a))
                   (filter (fun w => w ∉ deleted_widgets) (todo_widgets s)) in
  let new_ids := map (widget_item_id (win a))
                   (filter (fun w => w ∉ newly_created_widgets a) (new_widgets_list a)) in
  mkLoadReport (newly_created_widgets a) deleted_widgets (bool_decide (old_ids ≠ new_ids)).

Definition _load_items (force_repack : bool) (s : NoteWindow) : NoteWindow :=
  let a := load_loop s in
  let r := load_report s in
  (* 4. destroy the widgets whose id is gone *)
  let s4 := emit (map EvDestroy (destroyed r)) (win a) in
  (* 6. self.todo_widgets = new_widgets_list *)
  let s6 := set_todo_widgets (new_widgets_list a) s4 in
  (* 7. packing strategy *)
  let s7 :=
    if force_repack || order_changed r then
      emit (map (fun w => EvPackForget (SlaveItem w)) (todo_widgets s6)
            ++ map (fun w => EvPack (SlaveItem w) None) (todo_widgets s6)) s6
    else if decide (created r ≠ []) then
      if decide (length (created r) = length (todo_widgets s6)) then
        emit (map (fun w => EvPack (SlaveItem w) None) (todo_widgets s6)) s6
      else fold_left (pack_new_widget (created r)) (created r) s6
    else s6 in
  (* 8. the placeholder goes last *)
  emit [EvPackForget SlavePlaceholder; EvPack SlavePlaceholder None] s7.

(** ** History: [_save_data], [_auto_save], [_undo], [_redo] *)

Definition _save_data (record_history : bool) (s : NoteWindow) : NoteWindow :=
  let s3 :=
    if record_history then
      (* drop the records after the current index *)
      let s1 :=
        if decide (_history_index s < Z.of_nat (length (_history s)) - 1)
        then set_history (py_slice_to (_history s) (_history_index s + 1)) s
        else s in
      (* append a deep copy, bound the size *)
      let s2 := set_history (_history s1 ++ [snapshot s1]) s1 in
      let s2' :=
        if decide (Z.of_nat (length (_history s2)) > MAX_HISTORY_SIZE)
        then set_history_index (_history_index s2 - 1)
               (set_history (drop 1 (_history s2)) s2)
        else s2 in
      set_history_index (Z.of_nat (length (_history s2')) - 1) s2'
    else s in
  emit [EvSave (snapshot s3)] s3.

(** The timer re-arms itself; each firing is one call. *)
Definition _auto_save (s : NoteWindow) : NoteWindow := _save_data false s.

(** A failing subscript raises inside the Tk callback: the handler stops
    and the assignments already made stay. *)
Definition _undo (s : NoteWindow) : NoteWindow :=
  if decide (_history_index s > 0) then
    let s1 := set_history_index (_history_index s - 1) s in
    match py_index (_history s1) (_history_index s1) with
    | None => s1
    | Some d =>
        let s2 := _load_items false (set_data d s1) in
        emit [EvSave (snapshot s2)] s2
    end
  else s.

Definition _redo (s : NoteWindow) : NoteWindow :=
  if decide (_history_index s < Z.of_nat (length (_history s)) - 1) then
    let s1 := set_history_index (_history_index s + 1) s in
    match py_index (_history s1) (_history_index s1) with
    | None => s1
    | Some d =>
        let s2 := _load_items false (set_data d s1) in
        emit [EvSave (snapshot s2)] s2
    end
  else s.

(** ** Writes through [item_data] *)

(** [self.item_data['text'] = t] for the dict at [l]. *)
Definition write_text (l : loc) (t : string) (s : NoteWindow) : NoteWindow :=
  let it := item_at s l in
  set_item_heap
    (<[l := mkItem (item_id it) t (item_completed it) (item_created_at it)]> (item_heap s)) s.

(** [self.item_data['completed'] = c]. *)
Definition write_completed (l : loc) (c : bool) (s : NoteWindow) : NoteWindow :=
  let it := item_at s l in
  set_item_heap
    (<[l := mkItem (item_id it) (item_text it) c (item_created_at it)]> (item_heap s)) s.

(** The body of the loop of [_save_all_texts]:
    [widget.item_data['text'] = widget.text_entry.get('1.0', 'end-1c')]. *)
Definition save_text_of (s : NoteWindow) (widget : wref) : NoteWindow :=
  write_text (item_data (widget_at s widget)) (text_entry (widget_at s widget)) s.

(** [NoteWindow._save_all_texts]. *)
Definition _save_all_texts (s : NoteWindow) : NoteWindow :=
  fold_left save_text_of (todo_widgets s) s.

(** ** Mutations of the item list *)

(** [NoteWindow._on_item_changed(reload)]. *)
Definition _on_item_changed (reload : bool) (s : NoteWindow) : NoteWindow :=
  let s1 := if reload then _load_items false s else s in
  _save_data true s1.

(** [max([item['id'] for item in self.data['items']], default=0) + 1]. *)
Definition next_id (s : NoteWindow) : Z := py_max_default (ids s) 0 + 1.

(** The first half of [NoteWindow._add_item(after_id)], up to the
    insertion into [data['items']]; [now] is [datetime.now().isoformat()]. *)
Definition add_item_data (after_id : option Z) (now : string) (s : NoteWindow) : NoteWindow :=
  let s1 := _save_all_texts s in
  let new_id := next_id s1 in
  let new_item := length (item_heap s1) in
  let s2 := set_item_heap (item_heap s1 ++ [mkItem new_id "" false now]) s1 in
  match after_id with
  | Some a =>
      match index_of a (ids s2) with
      | Some i => set_data_items (py_insert (i + 1) new_item (data_items s2)) s2
      | None => set_data_items (data_items s2 ++ [new_item]) s2
      end
  | None => set_data_items (data_items s2 ++ [new_item]) s2
  end.

(** [NoteWindow._add_item(after_id)]: the insertion, then [_load_items()],
    the focus change, and [_save_data()]. *)
Definition _add_item (after_id : option Z) (now : string) (s : NoteWindow) : NoteWindow :=
  _save_data true (_load_items false (add_item_data after_id now s)).

(** The first half of [NoteWindow._delete_item(item_id)], up to the
    filtering of [data['items']]. *)
Definition delete_item_data (id : Z) (s : NoteWindow) : NoteWindow :=
  let s1 := _save_all_texts s in
  set_data_items (filter (fun l => item_id (item_at s1 l) ≠ id) (data_items s1)) s1.

(** [NoteWindow._delete_item(item_id)]: the filtering, then
    [_load_items()], the focus change, and [_save_data()]. *)
Definition _delete_item (id : Z) (s : NoteWindow) : NoteWindow :=
  _save_data true (_load_items false (delete_item_data id s)).

(** [NoteWindow._swap_items(item_id, direction)]. *)
Definition _swap_items (id : Z) (direction : Z) (s : NoteWindow) : NoteWindow :=
  let current_index :=
    match index_of id (ids s) with
    | Some i => Z.of_nat i
    | None => -1
    end in
  if decide (current_index = -1) then s
  else
    let target_index := current_index + direction in
    if decide (0 ≤ target_index < Z.of_nat (length (data_items s))) then
      let a := data_items s !!! Z.to_nat current_index in
      let b := data_items s !!! Z.to_nat target_index in
      let s1 := set_data_items
                  (<[Z.to_nat target_index := a]>
                     (<[Z.to_nat current_index := b]> (data_items s))) s in
      let s2 := _load_items false s1 in
      _save_data true s2
    else s.

(** [NoteWindow._clear_completed]. *)
Definition _clear_completed (s : NoteWindow) : NoteWindow :=
  let s1 := set_data_items
              (filter (fun l => item_completed (item_at s l) = false) (data_items s)) s in
  _save_data true (_load_items false s1).

(** [NoteWindow._change_font_size(size)]. *)
Definition _change_font_size (size : Z) (s : NoteWindow) : NoteWindow :=
  let s1 := _save_all_texts s in
  let g := data_settings s1 in
  let s2 := set_data_settings
              (mkSettings (mode g) (visibility_mode g) size
                 (opacity_focused g) (opacity_unfocused g)) s1 in
  _save_data true (_load_items false s2).

(** [NoteWindow._toggle_mode]. *)
Definition _toggle_mode (s : NoteWindow) : NoteWindow :=
  let g := data_settings s in
  let m := if decide (mode g = "topmost") then "desktop" else "topmost" in
  _save_data true
    (set_data_settings
       (mkSettings m (visibility_mode g) (font_size g)
          (opacity_focused g) (opacity_unfocused g)) s).

(** [NoteWindow._toggle_visibility_mode]. *)
Definition _toggle_visibility_mode (s : NoteWindow) : NoteWindow :=
  let g := data_settings s in
  let v := if decide (visibility_mode g = "always_visible")
           then "auto_hide" else "always_visible" in
  _save_data true
    (set_data_settings
       (mkSettings (mode g) v (font_size g)
          (opacity_focused g) (opacity_unfocused g)) s).

(** [NoteWindow._save_window_position]; the arguments are what
    [winfo_x], [winfo_y], [winfo_width], [winfo_height] answer. *)
Definition _save_window_position (g : Window) (s : NoteWindow) : NoteWindow :=
  _save_data true (set_data_window g s).

(** ** [TodoItem] handlers *)

(** The user types: the text widget of [self] now shows [t]. *)
Definition type_text (self : wref) (t : string) (s : NoteWindow) : NoteWindow :=
  let o := widget_at s self in
  set_widget_heap
    (<[self := mkTodoItem (item_data o) (w_font_size o) t (_is_dragging o)]> (widget_heap s)) s.

(** [TodoItem._on_text_change(event)]; [has_event] is [event is not None]. *)
Definition _on_text_change (self : wref) (has_event : bool) (s : NoteWindow) : NoteWindow :=
  let o := widget_at s self in
  let new_text := text_entry o in
  if decide (new_text ≠ item_text (item_at s (item_data o))) then
    let s1 := write_text (item_data o) new_text s in
    if has_event then _on_item_changed false s1 else s1
  else s.

(** [TodoItem._on_toggle]. *)
Definition _on_toggle (self : wref) (s : NoteWindow) : NoteWindow :=
  let s1 := _on_text_change self false s in
  let l := item_data (widget_at s1 self) in
  let old_completed := item_completed (item_at s1 l) in
  let s2 := write_completed l (negb old_completed) s1 in
  _on_item_changed false s2.

(** ** Drag reordering *)

(** What Tk answers for a row at the time of a pointer event:
    [(winfo_rooty(), winfo_height())]. *)
Definition Geometry : Type := wref -> Z * Z.

(** [widget.winfo_rooty() + widget.winfo_height() // 2]. *)
Definition midpoint (geom : Geometry) (w : wref) : Z :=
  (geom w).1 + (geom w).2 `div` 2.

(** The loop of [_get_insert_position], entered at index [i]. *)
Fixpoint insert_position_from (geom : Geometry) (y_pos : Z) (i : nat)
    (ws : list wref) : nat :=
  match ws with
  | [] => i
  | widget :: ws' =>
      if decide (y_pos < midpoint geom widget) then i
      else insert_position_from geom y_pos (S i) ws'
  end.

(** [NoteWindow._get_insert_position(y_pos)]. *)
Definition _get_insert_position (geom : Geometry) (y_pos : Z) (s : NoteWindow) : nat :=
  insert_position_from geom y_pos 0 (todo_widgets s).

(** [NoteWindow._handle_item_drag(widget, y_pos)].  The insertion line
    ([_show_insert_indicator]) is decoration and leaves no state. *)
Definition _handle_item_drag (geom : Geometry) (widget : wref) (y_pos : Z)
    (s : NoteWindow) : NoteWindow :=
  let s1 :=
    match _dragging_widget s with
    | None => set_dragging_widget (Some widget) s
    | Some _ => s
    end in
  let insert_index := _get_insert_position geom y_pos s1 in
  match index_of widget (todo_widgets s1) with
  | None => s1
  | Some current_index =>
      if decide (insert_index ≠ current_index ∧ insert_index ≠ (current_index + 1)%nat) then
        let target :=
          if decide (insert_index < length (todo_widgets s1))%nat
          then SlaveItem (todo_widgets s1 !!! insert_index)
          else SlavePlaceholder in
        let s2 := emit [EvPackForget (SlaveItem widget);
                        EvPack (SlaveItem widget) (Some target)] s1 in
        let position :=
          if decide (insert_index ≤ current_index)%nat
          then insert_index else (insert_index - 1)%nat in
        set_todo_widgets (py_insert position widget (py_remove widget (todo_widgets s2))) s2
      else s1
  end.

(** The inner loop of [_handle_item_drop]: the first item whose id is
    [id]. *)
Definition first_item_with_id (s : NoteWindow) (id : Z) : option loc :=
  snd <$> list_find (fun l => item_id (item_at s l) = id) (data_items s).

(** [NoteWindow._handle_item_drop(widget)]. *)
Definition _handle_item_drop (widget : wref) (s : NoteWindow) : NoteWindow :=
  match _dragging_widget s with
  | None => s
  | Some _ =>
      let s1 := set_dragging_widget None s in
      let new_order :=
        omap (fun w => first_item_with_id s1 (widget_item_id s1 w)) (todo_widgets s1) in
      _save_data true (set_data_items new_order s1)
  end.

Definition set_is_dragging (self : wref) (b : bool) (s : NoteWindow) : NoteWindow :=
  let o := widget_at s self in
  set_widget_heap
    (<[self := mkTodoItem (item_data o) (w_font_size o) (text_entry o) b]> (widget_heap s)) s.

(** [TodoItem._start_dragging]: the long press of 300 ms elapsed. *)
Definition _start_dragging (self : wref) (s : NoteWindow) : NoteWindow :=
  set_is_dragging self true s.

(** [TodoItem._on_dragging(event)], [y_root = event.y_root]. *)
Definition _on_dragging (geom : Geometry) (self : wref) (y_root : Z)
    (s : NoteWindow) : NoteWindow :=
  if _is_dragging (widget_at s self) then _handle_item_drag geom self y_root s else s.

(** [TodoItem._end_dragging]. *)
Definition _end_dragging (self : wref) (s : NoteWindow) : NoteWindow :=
  _handle_item_drop self (set_is_dragging self false s).

(** [TodoItem._on_checkbox_release]: a short press toggles, a long press
    ends the drag. *)
Definition _on_checkbox_release (self : wref) (s : NoteWindow) : NoteWindow :=
  if _is_dragging (widget_at s self) then _end_dragging self s else _on_toggle self s.

(** One whole gesture on the checkbox of [self]: long press, the pointer
    motions, release. *)
Definition drag_moves (self : wref) (moves : list (Geometry * Z)) (s : NoteWindow) : NoteWindow :=
  fold_left (fun s m => _on_dragging m.1 self m.2 s) moves s.

Definition drag_gesture (self : wref) (moves : list (Geometry * Z)) (s : NoteWindow) : NoteWindow :=
  _on_checkbox_release self (drag_moves self moves (_start_dragging self s)).

(** ** Start-up and the events of a session *)

(** What Tk answers to [winfo_screenwidth()] and [winfo_screenheight()]. *)
Record Screen : Type := mkScreen {
  screen_width : Z;
  screen_height : Z
}.

(** The field assignments that open [NoteWindow.__init__], with [d] the
    answer of [DataManager.load()]. *)
Definition NoteWindow_fields (d : Document) : NoteWindow :=
  mkNoteWindow (items d) [] (seq 0 (length (items d)))
    (window d) (settings d) [] None [] (-1) [].

(** [NoteWindow._setup_window]: a stored position that lies off the screen
    is replaced by (100, 100) in [self.data['window']]; width and height
    stay.  The record holds every key of the window dict, so the defaults
    of [win_cfg.get] play no part.  The Tk calls of the method (geometry,
    attributes, timers) write no field of the model. *)
Definition _setup_window (scr : Screen) (s : NoteWindow) : NoteWindow :=
  let win_cfg := data_window s in
  let x := win_x win_cfg in
  let y := win_y win_cfg in
  let width := win_width win_cfg in
  let height := win_height win_cfg in
  if decide (x >= screen_width scr - 10 \/ y >= screen_height scr - 10
             \/ x < - width + 10 \/ y < -10)
  then set_data_window (mkWindow 100 100 width height) s
  else s.

(** [NoteWindow.__init__]: the field assignments, [_setup_window()],
    [_load_items()] and the first [_auto_save()]; [_create_ui()] and
    [_bind_events()] in between build widgets and bindings only. *)
Definition NoteWindow_init (scr : Screen) (d : Document) : NoteWindow :=
  _auto_save (_load_items false (_setup_window scr (NoteWindow_fields d))).

(** The handlers that end in [_save_data()], i.e. record history. *)
Inductive Mutation : Type :=
  | ToggleCompletion (w : wref)
  | EditText (w : wref) (t : string)
  | AddItem (after_id : option Z) (now : string)
  | DeleteItem (id : Z)
  | SwapItems (id : Z) (direction : Z)
  | ClearCompleted
  | ChangeFontSize (size : Z)
  | ToggleMode
  | ToggleVisibilityMode
  | SaveWindowPosition (g : Window)
  | DragGesture (w : wref) (moves : list (Geometry * Z)).

Definition mutate (m : Mutation) (s : NoteWindow) : NoteWindow :=
  match m with
  | ToggleCompletion w => _on_toggle w s
  | EditText w t => _on_text_change w true (type_text w t s)
  | AddItem after_id now => _add_item after_id now s
  | DeleteItem id => _delete_item id s
  | SwapItems id direction => _swap_items id direction s
  | ClearCompleted => _clear_completed s
  | ChangeFontSize size => _change_font_size size s
  | ToggleMode => _toggle_mode s
  | ToggleVisibilityMode => _toggle_visibility_mode s
  | SaveWindowPosition g => _save_window_position g s
  | DragGesture w moves => drag_gesture w moves s
  end.

Definition mutate_all (ms : list Mutation) (s : NoteWindow) : NoteWindow :=
  fold_left (fun s m => mutate m s) ms s.

(** Everything that can happen between start-up and exit. *)
Inductive Action : Type :=
  | Mutate (m : Mutation)
  | Undo
  | Redo
  | AutoSave
  | TypeText (w : wref) (t : string).

Definition act (a : Action) (s : NoteWindow) : NoteWindow :=
  match a with
  | Mutate m => mutate m s
  | Undo => _undo s
  | Redo => _redo s
  | AutoSave => _auto_save s
  | TypeText w t => type_text w t s
  end.

Definition run (acts : list Action) (s : NoteWindow) : NoteWindow :=
  fold_left (fun s a => act a s) acts s.

(** ** Examples *)

Definition item_a : Item := mkItem 1 "a" false "2024-01-01T00:00:00".
Definition item_b : Item := mkItem 2 "b" false "2024-01-01T00:00:01".
Definition item_c : Item := mkItem 3 "c" false "2024-01-01T00:00:02".
Definition doc_abc : Document :=
  mkDocument [item_a; item_b; item_c] (window DEFAULT_CONFIG) (settings DEFAULT_CONFIG).
Definition doc_ab : Document :=
  mkDocument [item_a; item_b] (window DEFAULT_CONFIG) (settings DEFAULT_CONFIG).

(** A 1920 x 1080 screen. *)
Definition screen_hd : Screen := mkScreen 1920 1080.

Example init_abc_ids : ids (NoteWindow_init screen_hd doc_abc) = [1; 2; 3].
Proof. vm_compute. reflexivity. Qed.

Example init_abc_widgets :
  map (widget_item_id (NoteWindow_init screen_hd doc_abc)) (todo_widgets (NoteWindow_init screen_hd doc_abc))
  = [1; 2; 3].
Proof. vm_compute. reflexivity. Qed.

Example add_after_1 :
  ids (_add_item (Some 1) "t" (NoteWindow_init screen_hd doc_ab)) = [1; 3; 2].
Proof. vm_compute. reflexivity. Qed.

Example swap_up :
  ids (_swap_items 2 (-1) (_add_item (Some 1) "t" (NoteWindow_init screen_hd doc_ab))) = [1; 2; 3].
Proof. vm_compute. reflexivity. Qed.

(** * Properties *)

(** ** Frames: which handlers leave which fields alone *)

(** The live document and the history, as the fields that hold them. *)
Definition data_core (s : NoteWindow) : list Item * list loc * Window * Settings :=
  (item_heap s, data_items s, data_window s, data_settings s).
Definition hist_core (s : NoteWindow) : list Document * Z :=
  (_history s, _history_index s).

Lemma snapshot_core s s' : data_core s' = data_core s -> snapshot s' = snapshot s.
Proof.
  unfold data_core, snapshot, item_at. intros H.
  injection H as H1 H2 H3 H4. by rewrite H1, H2, H3, H4.
Qed.

Lemma ids_core s s' : data_core s' = data_core s -> ids s' = ids s.
Proof.
  unfold data_core, ids, item_at. intros H.
  injection H as H1 H2 H3 H4. by rewrite H1, H2.
Qed.

Lemma hist_core_eq s s' :
  hist_core s' = hist_core s ->
  _history s' = _history s /\ _history_index s' = _history_index s.
Proof. intros H. split; [exact (f_equal fst H)|exact (f_equal snd H)]. Qed.

Lemma data_core_eq s s' :
  data_core s' = data_core s ->
  item_heap s' = item_heap s /\ data_items s' = data_items s
  /\ data_window s' = data_window s /\ data_settings s' = data_settings s.
Proof.
  intros H. repeat split.
  - exact (f_equal (fun p => p.1.1.1) H).
  - exact (f_equal (fun p => p.1.1.2) H).
  - exact (f_equal (fun p => p.1.2) H).
  - exact (f_equal snd H).
Qed.

Lemma fold_left_invariant {A B : Type} (I : A -> Prop) (f : A -> B -> A) l a :
  I a -> (forall a x, I a -> I (f a x)) -> I (fold_left f l a).
Proof.
  intros Ha Hf. revert a Ha.
  induction l as [|x l IH]; intros a Ha; simpl; [done|]. apply IH. by apply Hf.
Qed.

Lemma update_item_data_core w l fs s :
  data_core (update_item_data w l fs s) = data_core s
  /\ hist_core (update_item_data w l fs s) = hist_core s.
Proof. done. Qed.

Lemma create_todo_widget_core l p s :
  data_core (_create_todo_widget l p s).2 = data_core s
  /\ hist_core (_create_todo_widget l p s).2 = hist_core s.
Proof. unfold _create_todo_widget. by destruct p. Qed.

Lemma load_loop_core s :
  data_core (win (load_loop s)) = data_core s
  /\ hist_core (win (load_loop s)) = hist_core s.
Proof.
  unfold load_loop.
  apply (fold_left_invariant
           (fun a => data_core (win a) = data_core s /\ hist_core (win a) = hist_core s));
    [done|].
  intros a x [Hd Hh]. unfold load_step.
  destruct (dict_get _ _); cbn [win].
  - destruct (update_item_data_core w x (Some (font_size (data_settings (win a)))) (win a))
      as [-> ->]. done.
  - destruct (create_todo_widget_core x false (win a)) as [-> ->]. done.
Qed.

Lemma pack_new_widget_core c s w :
  data_core (pack_new_widget c s w) = data_core s
  /\ hist_core (pack_new_widget c s w) = hist_core s
  /\ todo_widgets (pack_new_widget c s w) = todo_widgets s
  /\ widget_heap (pack_new_widget c s w) = widget_heap s
  /\ _dragging_widget (pack_new_widget c s w) = _dragging_widget s.
Proof.
  unfold pack_new_widget.
  repeat (case_match || case_decide); done.
Qed.

Lemma pack_new_widgets_core c l s :
  data_core (fold_left (pack_new_widget c) l s) = data_core s
  /\ hist_core (fold_left (pack_new_widget c) l s) = hist_core s
  /\ todo_widgets (fold_left (pack_new_widget c) l s) = todo_widgets s
  /\ widget_heap (fold_left (pack_new_widget c) l s) = widget_heap s
  /\ _dragging_widget (fold_left (pack_new_widget c) l s) = _dragging_widget s.
Proof.
  revert s. induction l as [|w l IH]; intros s; simpl; [done|].
  destruct (IH (pack_new_widget c s w)) as (-> & -> & -> & -> & ->).
  apply pack_new_widget_core.
Qed.

Lemma load_items_frame f s :
  data_core (_load_items f s) = data_core s
  /\ hist_core (_load_items f s) = hist_core s
  /\ todo_widgets (_load_items f s) = new_widgets_list (load_loop s)
  /\ widget_heap (_load_items f s) = widget_heap (win (load_loop s))
  /\ _dragging_widget (_load_items f s) = _dragging_widget (win (load_loop s)).
Proof.
  unfold _load_items. cbv zeta.
  destruct (load_loop_core s) as [Hd Hh].
  set (s6 := set_todo_widgets _ _).
  assert (data_core s6 = data_core s /\ hist_core s6 = hist_core s
          /\ todo_widgets s6 = new_widgets_list (load_loop s)
          /\ widget_heap s6 = widget_heap (win (load_loop s))
          /\ _dragging_widget s6 = _dragging_widget (win (load_loop s)))
    as H6 by (by rewrite <- Hd, <- Hh).
  clearbody s6.
  destruct (f || _); [exact H6|].
  case_decide; [|exact H6].
  case_decide; [exact H6|].
  match goal with
  | |- context [fold_left (pack_new_widget ?c) ?l ?t] =>
      destruct (pack_new_widgets_core c l t) as (Hp1 & Hp2 & Hp3 & Hp4 & Hp5)
  end.
  destruct H6 as (<- & <- & <- & <- & <-). done.
Qed.

Lemma load_items_core f s :
  data_core (_load_items f s) = data_core s
  /\ hist_core (_load_items f s) = hist_core s.
Proof. destruct (load_items_frame f s) as (? & ? & _). done. Qed.

Lemma load_items_todo_widgets f s :
  todo_widgets (_load_items f s) = new_widgets_list (load_loop s).
Proof. apply load_items_frame. Qed.

Lemma snapshot_load_items f s : snapshot (_load_items f s) = snapshot s.
Proof. apply snapshot_core, load_items_core. Qed.

Lemma ids_load_items f s : ids (_load_items f s) = ids s.
Proof. apply ids_core, load_items_core. Qed.

Lemma history_load_items f s :
  _history (_load_items f s) = _history s
  /\ _history_index (_load_items f s) = _history_index s.
Proof.
  destruct (load_items_core f s) as [_ H]. unfold hist_core in H. by simplify_eq.
Qed.

Lemma write_text_frame l t s :
  hist_core (write_text l t s) = hist_core s
  /\ data_items (write_text l t s) = data_items s
  /\ data_window (write_text l t s) = data_window s
  /\ data_settings (write_text l t s) = data_settings s
  /\ todo_widgets (write_text l t s) = todo_widgets s
  /\ widget_heap (write_text l t s) = widget_heap s
  /\ length (item_heap (write_text l t s)) = length (item_heap s).
Proof. unfold write_text. simpl. by rewrite length_insert. Qed.

Lemma save_all_texts_frame s :
  hist_core (_save_all_texts s) = hist_core s
  /\ data_items (_save_all_texts s) = data_items s
  /\ data_window (_save_all_texts s) = data_window s
  /\ data_settings (_save_all_texts s) = data_settings s
  /\ todo_widgets (_save_all_texts s) = todo_widgets s
  /\ widget_heap (_save_all_texts s) = widget_heap s
  /\ length (item_heap (_save_all_texts s)) = length (item_heap s).
Proof.
  unfold _save_all_texts.
  apply (fold_left_invariant
           (fun s' => hist_core s' = hist_core s
                      /\ data_items s' = data_items s
                      /\ data_window s' = data_window s
                      /\ data_settings s' = data_settings s
                      /\ todo_widgets s' = todo_widgets s
                      /\ widget_heap s' = widget_heap s
                      /\ length (item_heap s') = length (item_heap s))); [done|].
  intros a w (<- & <- & <- & <- & <- & <- & <-). apply write_text_frame.
Qed.

Lemma handle_item_drag_core geom w y s :
  data_core (_handle_item_drag geom w y s) = data_core s
  /\ hist_core (_handle_item_drag geom w y s) = hist_core s
  /\ widget_heap (_handle_item_drag geom w y s) = widget_heap s.
Proof.
  unfold _handle_item_drag.
  repeat (case_match || case_decide); done.
Qed.

Lemma on_dragging_core geom w y s :
  data_core (_on_dragging geom w y s) = data_core s
  /\ hist_core (_on_dragging geom w y s) = hist_core s
  /\ widget_heap (_on_dragging geom w y s) = widget_heap s.
Proof.
  unfold _on_dragging. destruct (_is_dragging _); [|done].
  apply handle_item_drag_core.
Qed.

Lemma drag_moves_core w moves s :
  data_core (drag_moves w moves s) = data_core s
  /\ hist_core (drag_moves w moves s) = hist_core s
  /\ widget_heap (drag_moves w moves s) = widget_heap s.
Proof.
  unfold drag_moves. revert s.
  induction moves as [|m moves IH]; intros s; simpl; [done|].
  destruct (IH (_on_dragging m.1 w m.2 s)) as (-> & -> & ->).
  apply on_dragging_core.
Qed.

(** ** The history store *)

Lemma lookup_total_seq_app {A : Type} `{!Inhabited A} (h its : list A) :
  map (fun l => (h ++ its) !!! l) (seq (length h) (length its)) = its.
Proof.
  revert h. induction its as [|x its IH]; intros h; simpl; [done|]. f_equal.
  - rewrite lookup_total_app_r by lia. by rewrite Nat.sub_diag.
  - specialize (IH (h ++ [x])).
    rewrite length_app, <- app_assoc in IH. simpl in IH.
    by replace (S (length h)) with (length h + 1)%nat by lia.
Qed.

(** Assigning a detached document and reading it back gives the same
    value: the JSON round trip is the identity on these records. *)
Lemma snapshot_set_data d s : snapshot (set_data d s) = d.
Proof.
  unfold snapshot, set_data, item_at. simpl.
  rewrite lookup_total_seq_app. by destruct d.
Qed.

Lemma set_data_hist d s : hist_core (set_data d s) = hist_core s.
Proof. done. Qed.

Lemma save_data_core b s : data_core (_save_data b s) = data_core s.
Proof. unfold _save_data. destruct b; repeat case_decide; done. Qed.

Lemma save_data_snapshot b s : snapshot (_save_data b s) = snapshot s.
Proof. apply snapshot_core, save_data_core. Qed.

Lemma save_data_trace b s :
  trace (_save_data b s) = trace s ++ [EvSave (snapshot s)].
Proof. unfold _save_data. destruct b; repeat case_decide; done. Qed.


Lemma save_data_false_hist s : hist_core (_save_data false s) = hist_core s.
Proof. done. Qed.

(** The history a push leaves, as a function of the old history, the old
    index and the snapshot taken. *)
Definition pushed_history (h : list Document) (i : Z) (d : Document) : list Document :=
  let h0 := if decide (i < Z.of_nat (length h) - 1) then py_slice_to h (i + 1) else h in
  if decide (Z.of_nat (length (h0 ++ [d])) > MAX_HISTORY_SIZE)
  then drop 1 (h0 ++ [d]) else h0 ++ [d].

Lemma save_data_true_history s :
  _history (_save_data true s) = pushed_history (_history s) (_history_index s) (snapshot s).
Proof. unfold _save_data, pushed_history. repeat case_decide; done. Qed.

Lemma save_data_true_index s :
  _history_index (_save_data true s)
  = Z.of_nat (length (_history (_save_data true s))) - 1.
Proof. unfold _save_data. repeat case_decide; done. Qed.

Lemma last_drop_1_snoc {A : Type} (l : list A) (x : A) :
  (1 < length (l ++ [x]))%nat -> last (drop 1 (l ++ [x])) = Some x.
Proof.
  destruct l as [|y l]; simpl; [lia|]. intros _. apply last_snoc.
Qed.

Lemma pushed_history_last h i d : last (pushed_history h i d) = Some d.
Proof.
  unfold pushed_history, MAX_HISTORY_SIZE. cbv zeta.
  case_decide as Hlen.
  - apply last_drop_1_snoc. lia.
  - apply last_snoc.
Qed.

Lemma py_slice_to_length {A : Type} (l : list A) (stop : Z) :
  (length (py_slice_to l stop) <= length l)%nat.
Proof. unfold py_slice_to. case_decide; rewrite length_take; lia. Qed.

Lemma pushed_history_length h i d :
  (length h <= 20)%nat ->
  (1 <= length (pushed_history h i d) <= 20)%nat.
Proof.
  intros Hh. unfold pushed_history, MAX_HISTORY_SIZE. cbv zeta.
  pose proof (py_slice_to_length h (i + 1)).
  repeat case_decide; rewrite ?length_drop, ?length_app in *; simpl in *; lia.
Qed.

Lemma save_data_true_last s :
  last (_history (_save_data true s)) = Some (snapshot s).
Proof. rewrite save_data_true_history. apply pushed_history_last. Qed.

Lemma emit_core es t :
  data_core (emit es t) = data_core t /\ hist_core (emit es t) = hist_core t.
Proof. done. Qed.

Lemma history_emit es t : _history (emit es t) = _history t.
Proof. done. Qed.

Lemma history_index_emit es t : _history_index (emit es t) = _history_index t.
Proof. done. Qed.

Lemma snapshot_emit es t : snapshot (emit es t) = snapshot t.
Proof. done. Qed.

Lemma trace_emit es t : trace (emit es t) = trace t ++ es.
Proof. done. Qed.

Lemma history_reload d t :
  _history (_load_items false (set_data d t)) = _history t
  /\ _history_index (_load_items false (set_data d t)) = _history_index t.
Proof.
  destruct (load_items_core false (set_data d t)) as [_ Hh].
  apply hist_core_eq in Hh as [Hh1 Hh2]. by rewrite Hh1, Hh2.
Qed.

Lemma undo_history s : _history (_undo s) = _history s.
Proof.
  unfold _undo. case_decide; [|done]. cbv zeta.
  case_match; [|done].
  rewrite history_emit.
  destruct (history_reload d (set_history_index (_history_index s - 1) s)) as [-> _].
  done.
Qed.

Lemma redo_history s : _history (_redo s) = _history s.
Proof.
  unfold _redo. case_decide; [|done]. cbv zeta.
  case_match; [|done].
  rewrite history_emit.
  destruct (history_reload d (set_history_index (_history_index s + 1) s)) as [-> _].
  done.
Qed.

Lemma undo_noop s : _history_index s <= 0 -> _undo s = s.
Proof. intros H. unfold _undo. by rewrite decide_False by lia. Qed.

Lemma redo_noop s :
  Z.of_nat (length (_history s)) - 1 <= _history_index s -> _redo s = s.
Proof. intros H. unfold _redo. by rewrite decide_False by lia. Qed.

Lemma undo_step s d :
  0 < _history_index s ->
  py_index (_history s) (_history_index s - 1) = Some d ->
  snapshot (_undo s) = d /\ hist_core (_undo s) = (_history s, _history_index s - 1).
Proof.
  intros Hi Hd. unfold _undo. rewrite decide_True by lia. cbv zeta.
  change (_history (set_history_index (_history_index s - 1) s)) with (_history s).
  change (_history_index (set_history_index (_history_index s - 1) s))
    with (_history_index s - 1).
  rewrite Hd.
  set (s2 := _load_items false _).
  assert (snapshot s2 = d) as H2.
  { unfold s2. rewrite snapshot_load_items. apply snapshot_set_data. }
  assert (hist_core s2 = (_history s, _history_index s - 1)) as H3.
  { unfold s2. destruct (load_items_core false
      (set_data d (set_history_index (_history_index s - 1) s))) as [_ ->]. done. }
  split; [|exact H3].
  rewrite <- H2. by apply snapshot_core.
Qed.

Lemma redo_step s d :
  _history_index s < Z.of_nat (length (_history s)) - 1 ->
  py_index (_history s) (_history_index s + 1) = Some d ->
  snapshot (_redo s) = d /\ hist_core (_redo s) = (_history s, _history_index s + 1).
Proof.
  intros Hi Hd. unfold _redo. rewrite decide_True by lia. cbv zeta.
  change (_history (set_history_index (_history_index s + 1) s)) with (_history s).
  change (_history_index (set_history_index (_history_index s + 1) s))
    with (_history_index s + 1).
  rewrite Hd.
  set (s2 := _load_items false _).
  assert (snapshot s2 = d) as H2.
  { unfold s2. rewrite snapshot_load_items. apply snapshot_set_data. }
  assert (hist_core s2 = (_history s, _history_index s + 1)) as H3.
  { unfold s2. destruct (load_items_core false
      (set_data d (set_history_index (_history_index s + 1) s))) as [_ ->]. done. }
  split; [|exact H3].
  rewrite <- H2. by apply snapshot_core.
Qed.

Lemma py_index_nonneg {A : Type} (l : list A) (i : Z) :
  0 <= i -> py_index l i = l !! Z.to_nat i.
Proof. intros H. unfold py_index. by rewrite decide_False by lia. Qed.

Lemma py_index_in_range {A : Type} (l : list A) (i : Z) :
  0 <= i < Z.of_nat (length l) -> is_Some (py_index l i).
Proof.
  intros H. rewrite py_index_nonneg by lia. apply lookup_lt_is_Some. lia.
Qed.

Lemma py_index_last {A : Type} (l : list A) (x : A) :
  last l = Some x -> py_index l (Z.of_nat (length l) - 1) = Some x.
Proof.
  intros H. destruct l as [|y l]; [done|].
  rewrite py_index_nonneg by (simpl; lia).
  rewrite last_lookup in H. rewrite <- H. f_equal. simpl. lia.
Qed.

(** The state right after a push: the index is at the last record and that
    record is the live document. *)
Definition history_current (s : NoteWindow) : Prop :=
  _history_index s = Z.of_nat (length (_history s)) - 1
  /\ (_history s = [] \/ last (_history s) = Some (snapshot s)).

Lemma history_current_save s : history_current (_save_data true s).
Proof.
  split; [apply save_data_true_index|].
  right. rewrite save_data_snapshot. apply save_data_true_last.
Qed.

Lemma history_current_quiet s s' :
  hist_core s' = hist_core s -> data_core s' = data_core s ->
  history_current s -> history_current s'.
Proof.
  intros Hh Hd [Hi Hl]. unfold history_current.
  rewrite (snapshot_core _ _ Hd). unfold hist_core in Hh.
  injection Hh as Hh1 Hh2. by rewrite Hh1, Hh2.
Qed.

Lemma undo_redo_current s :
  history_current s ->
  snapshot (_redo (_undo s)) = snapshot s
  /\ hist_core (_redo (_undo s)) = hist_core s
  /\ ((2 <= length (_history s))%nat -> _history_index (_undo s) = _history_index s - 1).
Proof.
  intros [Hi Hl].
  destruct (decide (length (_history s) < 2)%nat) as [Hshort|Hlong].
  - rewrite (undo_noop s) by lia. rewrite (redo_noop s) by lia.
    repeat split. lia.
  - destruct Hl as [Hnil|Hlast]; [rewrite Hnil in Hlong; simpl in Hlong; lia|].
    destruct (py_index_in_range (_history s) (_history_index s - 1)) as [d Hd]; [lia|].
    destruct (undo_step s d) as [Hsu Hhu]; [lia|done|].
    unfold hist_core in Hhu. injection Hhu as Hh1 Hh2.
    destruct (redo_step (_undo s) (snapshot s)) as [Hsr Hhr].
    { rewrite Hh1, Hh2. lia. }
    { rewrite Hh1, Hh2. replace (_history_index s - 1 + 1) with
        (Z.of_nat (length (_history s)) - 1) by lia. by apply py_index_last. }
    repeat split; [done| |done].
    rewrite Hhr, Hh1, Hh2. unfold hist_core. f_equal. lia.
Qed.

(** ** Every handler of [Mutation] pushes once or declines *)

(** [s'] is [s] after one push, whatever the handler changed before it. *)
Definition records_into (s s' : NoteWindow) : Prop :=
  exists p, s' = _save_data true p /\ hist_core p = hist_core s.

(** [s'] is [s] with neither the document nor the history touched. *)
Definition declines_into (s s' : NoteWindow) : Prop :=
  hist_core s' = hist_core s /\ data_core s' = data_core s.

Lemma on_text_change_false_hist w s :
  hist_core (_on_text_change w false s) = hist_core s.
Proof. unfold _on_text_change. by case_decide. Qed.

Lemma on_toggle_records w s : records_into s (_on_toggle w s).
Proof.
  unfold _on_toggle, _on_item_changed. eexists. split; [reflexivity|].
  unfold write_completed, hist_core. simpl.
  apply (on_text_change_false_hist w s).
Qed.

Lemma add_item_data_hist a now s : hist_core (add_item_data a now s) = hist_core s.
Proof.
  unfold add_item_data. destruct (save_all_texts_frame s) as (Hh & _).
  repeat case_match; exact Hh.
Qed.

Lemma add_item_records a now s : records_into s (_add_item a now s).
Proof.
  unfold _add_item. eexists. split; [reflexivity|].
  match goal with |- hist_core (_load_items ?f ?t) = _ =>
    destruct (load_items_core f t) as [_ ->] end.
  apply add_item_data_hist.
Qed.

Lemma delete_item_records id s : records_into s (_delete_item id s).
Proof.
  unfold _delete_item. eexists. split; [reflexivity|].
  match goal with |- hist_core (_load_items ?f ?t) = _ =>
    destruct (load_items_core f t) as [_ ->] end.
  unfold delete_item_data.
  destruct (save_all_texts_frame s) as (Hh & _). exact Hh.
Qed.

Lemma swap_items_cases id dir s :
  records_into s (_swap_items id dir s) \/ _swap_items id dir s = s.
Proof.
  unfold _swap_items. cbv zeta.
  case_decide; [by right|]. case_decide; [|by right].
  left. eexists. split; [reflexivity|].
  match goal with |- hist_core (_load_items ?f ?t) = _ =>
    destruct (load_items_core f t) as [_ ->] end.
  done.
Qed.

Lemma clear_completed_records s : records_into s (_clear_completed s).
Proof.
  unfold _clear_completed. eexists. split; [reflexivity|].
  match goal with |- hist_core (_load_items ?f ?t) = _ =>
    destruct (load_items_core f t) as [_ ->] end.
  done.
Qed.

Lemma change_font_size_records n s : records_into s (_change_font_size n s).
Proof.
  unfold _change_font_size. eexists. split; [reflexivity|].
  match goal with |- hist_core (_load_items ?f ?t) = _ =>
    destruct (load_items_core f t) as [_ ->] end.
  destruct (save_all_texts_frame s) as (Hh & _). exact Hh.
Qed.

Lemma edit_text_cases w t s :
  records_into s (_on_text_change w true (type_text w t s))
  \/ declines_into s (_on_text_change w true (type_text w t s)).
Proof.
  unfold _on_text_change. case_decide; [|by right].
  left. unfold _on_item_changed. eexists. split; [reflexivity|]. done.
Qed.

Lemma handle_item_drop_cases w s :
  records_into s (_handle_item_drop w s) \/ _handle_item_drop w s = s.
Proof.
  unfold _handle_item_drop. destruct (_dragging_widget s); [|by right].
  left. eexists. split; [reflexivity|]. done.
Qed.

Lemma drag_gesture_cases w moves s :
  records_into s (drag_gesture w moves s) \/ declines_into s (drag_gesture w moves s).
Proof.
  unfold drag_gesture, _on_checkbox_release.
  set (s1 := drag_moves w moves (_start_dragging w s)).
  assert (data_core s1 = data_core s /\ hist_core s1 = hist_core s) as [Hd Hh].
  { destruct (drag_moves_core w moves (_start_dragging w s)) as (Hd & Hh & _).
    unfold s1. by rewrite Hd, Hh. }
  destruct (_is_dragging (widget_at s1 w)).
  - unfold _end_dragging.
    destruct (handle_item_drop_cases w (set_is_dragging w false s1))
      as [(p & Hp & Hhp)|Heq].
    + left. exists p. split; [done|]. by rewrite Hhp, <- Hh.
    + right. rewrite Heq. split; [by rewrite <- Hh|by rewrite <- Hd].
  - left. destruct (on_toggle_records w s1) as (p & Hp & Hhp).
    exists p. split; [done|]. by rewrite Hhp.
Qed.

Lemma mutate_cases m s :
  records_into s (mutate m s) \/ declines_into s (mutate m s).
Proof.
  destruct m; simpl.
  - left. apply on_toggle_records.
  - apply edit_text_cases.
  - left. apply add_item_records.
  - left. apply delete_item_records.
  - destruct (swap_items_cases id direction s) as [?| ->]; [by left|by right].
  - left. apply clear_completed_records.
  - left. apply change_font_size_records.
  - left. by eexists.
  - left. by eexists.
  - left. by eexists.
  - apply drag_gesture_cases.
Qed.

(** Handlers that push on every input. *)
Definition always_records (m : Mutation) : bool :=
  match m with
  | EditText _ _ | SwapItems _ _ | DragGesture _ _ => false
  | _ => true
  end.

Lemma mutate_always_records m s :
  always_records m = true -> records_into s (mutate m s).
Proof.
  destruct m; simpl; try discriminate; intros _.
  - apply on_toggle_records.
  - apply add_item_records.
  - apply delete_item_records.
  - apply clear_completed_records.
  - apply change_font_size_records.
  - by eexists.
  - by eexists.
  - by eexists.
Qed.

Lemma history_current_mutate m s :
  history_current s -> history_current (mutate m s).
Proof.
  intros Hs. destruct (mutate_cases m s) as [(p & -> & _)|[Hh Hd]].
  - apply history_current_save.
  - by apply (history_current_quiet s).
Qed.

Lemma init_hist scr d : hist_core (NoteWindow_init scr d) = ([], -1).
Proof.
  unfold NoteWindow_init, _auto_save. cbv zeta. rewrite save_data_false_hist.
  match goal with |- hist_core (_load_items ?f ?t) = _ =>
    destruct (load_items_core f t) as [_ ->] end.
  unfold _setup_window. cbv zeta. by case_decide.
Qed.

Lemma init_history scr d :
  _history (NoteWindow_init scr d) = [] /\ _history_index (NoteWindow_init scr d) = -1.
Proof.
  pose proof (init_hist scr d) as H.
  set (t := NoteWindow_init scr d) in *. clearbody t.
  split; [exact (f_equal fst H)|exact (f_equal snd H)].
Qed.

Lemma history_current_init scr d : history_current (NoteWindow_init scr d).
Proof.
  destruct (init_history scr d) as [H1 H2].
  split; [by rewrite H1, H2|by left].
Qed.

Lemma history_current_mutate_all ms s :
  history_current s -> history_current (mutate_all ms s).
Proof.
  intros Hs. unfold mutate_all.
  apply (fold_left_invariant history_current); [done|].
  intros a m Ha. by apply history_current_mutate.
Qed.

(** C1. Undo/redo inverse law: after any sequence of history-recording
    mutations of a session, [_undo()] followed at once by [_redo()] leaves
    the live document (items, window, settings) equal, field for field, to
    what the last mutation produced; the history list is the same after
    each of the two calls, so neither appends a record, and the index is
    back where it was.  With two or more records the undo does step back. *)
Theorem undo_redo_inverse (scr : Screen) (d : Document) (ms : list Mutation) :
  let s := mutate_all ms (NoteWindow_init scr d) in
  snapshot (_redo (_undo s)) = snapshot s
  /\ _history (_undo s) = _history s
  /\ _history (_redo (_undo s)) = _history s
  /\ _history_index (_redo (_undo s)) = _history_index s
  /\ ((2 <= length (_history s))%nat ->
      _history_index (_undo s) = _history_index s - 1).
Proof.
  intros s.
  assert (history_current s) as Hs
    by apply history_current_mutate_all, history_current_init.
  destruct (undo_redo_current s Hs) as (H1 & H2 & H3).
  unfold hist_core in H2. injection H2 as H2 H2'.
  repeat split; [done|apply undo_history|done|done|done].
Qed.

Lemma snapshot_fields d : snapshot (NoteWindow_fields d) = d.
Proof.
  destruct d as [its w g]. unfold snapshot, item_at, NoteWindow_fields.
  cbn [item_heap data_items data_window data_settings items window settings].
  f_equal. exact (lookup_total_seq_app [] its).
Qed.

Lemma snapshot_setup_window scr t :
  snapshot (_setup_window scr t)
  = mkDocument (items (snapshot t))
      (if decide (win_x (data_window t) >= screen_width scr - 10
                  \/ win_y (data_window t) >= screen_height scr - 10
                  \/ win_x (data_window t) < - win_width (data_window t) + 10
                  \/ win_y (data_window t) < -10)
       then mkWindow 100 100 (win_width (data_window t)) (win_height (data_window t))
       else data_window t)
      (settings (snapshot t)).
Proof. unfold _setup_window. cbv zeta. by case_decide. Qed.

Lemma snapshot_init scr d :
  snapshot (NoteWindow_init scr d) = snapshot (_setup_window scr (NoteWindow_fields d)).
Proof.
  unfold NoteWindow_init, _auto_save.
  by rewrite save_data_snapshot, snapshot_load_items.
Qed.

Lemma items_snapshot_init scr d : items (snapshot (NoteWindow_init scr d)) = items d.
Proof.
  rewrite snapshot_init, snapshot_setup_window. cbn [items].
  by rewrite snapshot_fields.
Qed.


(** A stored position above the top of the screen: the document held and
    saved after start-up has the position (100, 100), and the loaded
    position is in no record. *)
Example startup_off_screen :
  let d := mkDocument [item_a] (mkWindow 40 (-50) 320 450) (settings DEFAULT_CONFIG) in
  let s0 := NoteWindow_init screen_hd d in
  window (snapshot s0) = mkWindow 100 100 320 450
  /\ last (trace s0)
     = Some (EvSave (mkDocument [item_a] (mkWindow 100 100 320 450)
                       (settings DEFAULT_CONFIG)))
  /\ _history s0 = []
  /\ _history (_on_toggle 0%nat s0)
     = [mkDocument [mkItem 1 "a" true "2024-01-01T00:00:00"]
          (mkWindow 100 100 320 450) (settings DEFAULT_CONFIG)].
Proof. vm_compute. repeat split; reflexivity. Qed.

Lemma pushed_history_truncates h i d :
  -1 <= i < Z.of_nat (length h) ->
  exists k, (k <= 1)%nat
    /\ pushed_history h i d = drop k (take (Z.to_nat (i + 1)) h ++ [d]).
Proof.
  intros Hi. unfold pushed_history, py_slice_to. cbv zeta.
  assert ((if decide (i < Z.of_nat (length h) - 1)
           then (if decide (i + 1 < 0)
                 then take (Z.to_nat (Z.of_nat (length h) + (i + 1))) h
                 else take (Z.to_nat (i + 1)) h)
           else h) = take (Z.to_nat (i + 1)) h) as ->.
  { case_decide.
    - by rewrite decide_False by lia.
    - rewrite take_ge; [done|lia]. }
  case_decide; [exists 1%nat|exists 0%nat]; (split; [lia|done]).
Qed.

(** C3. Redo-branch discard: take any state in which [_undo()] succeeds,
    undo, and let a mutation push.  Then [_redo()] returns the state
    unchanged, the index is [len(_history) - 1], and the new history is the
    records up to the undone-to one followed by the new snapshot (less the
    oldest when the bound evicts): every record that was at or after the
    old index is gone. *)
Theorem redo_branch_discard (s : NoteWindow) (m : Mutation) :
  0 < _history_index s < Z.of_nat (length (_history s)) ->
  records_into (_undo s) (mutate m (_undo s)) ->
  let s' := mutate m (_undo s) in
  _redo s' = s'
  /\ _history_index s' = Z.of_nat (length (_history s')) - 1
  /\ exists k, (k <= 1)%nat
       /\ _history s' =
            drop k (take (Z.to_nat (_history_index s)) (_history s) ++ [snapshot s']).
Proof.
  intros Hi (p & Hp & Hhp) s'. unfold s'. rewrite Hp.
  split; [apply redo_noop; rewrite save_data_true_index; lia|].
  split; [apply save_data_true_index|].
  destruct (py_index_in_range (_history s) (_history_index s - 1)) as [d Hd]; [lia|].
  destruct (undo_step s d) as [_ Hu]; [lia|done|].
  rewrite Hu in Hhp. apply (f_equal fst) in Hhp as Hp1. apply (f_equal snd) in Hhp as Hp2.
  simpl in Hp1, Hp2.
  rewrite save_data_true_history, save_data_snapshot, Hp1, Hp2.
  destruct (pushed_history_truncates (_history s) (_history_index s - 1) (snapshot p))
    as (k & Hk & ->); [lia|].
  exists k. split; [done|]. do 3 f_equal. lia.
Qed.

Definition session_two_adds : NoteWindow :=
  mutate_all [AddItem None "t1"; AddItem None "t2"] (NoteWindow_init screen_hd DEFAULT_CONFIG).

Lemma redo_branch_discard_witness :
  let s := session_two_adds in
  let s' := mutate (AddItem None "t3") (_undo s) in
  _redo s' = s'
  /\ _history_index s' = Z.of_nat (length (_history s')) - 1
  /\ exists k, (k <= 1)%nat
       /\ _history s' =
            drop k (take (Z.to_nat (_history_index s)) (_history s) ++ [snapshot s']).
Proof.
  apply (redo_branch_discard session_two_adds (AddItem None "t3")).
  - vm_compute. split; reflexivity.
  - unfold records_into, mutate, _add_item. eexists. split; [reflexivity|].
    vm_compute. reflexivity.
Defined.

(** ** The bound of 20 records *)

Lemma history_bound_mutate m s :
  (length (_history s) <= 20)%nat -> (length (_history (mutate m s)) <= 20)%nat.
Proof.
  intros Hs. destruct (mutate_cases m s) as [(p & -> & Hp)|[Hq _]].
  - apply hist_core_eq in Hp as [Hp1 Hp2].
    rewrite save_data_true_history, Hp1, Hp2.
    apply pushed_history_length. done.
  - apply hist_core_eq in Hq as [-> _]. done.
Qed.

Lemma history_bound_act a s :
  (length (_history s) <= 20)%nat -> (length (_history (act a s)) <= 20)%nat.
Proof.
  intros Hs. destruct a; simpl.
  - by apply history_bound_mutate.
  - by rewrite undo_history.
  - by rewrite redo_history.
  - done.
  - done.
Qed.

Lemma history_bound_run scr acts d :
  (length (_history (run acts (NoteWindow_init scr d))) <= 20)%nat.
Proof.
  unfold run.
  apply (fold_left_invariant (fun s => (length (_history s) <= 20)%nat)).
  - destruct (init_history scr d) as [-> _]. simpl. lia.
  - intros a x Ha. by apply history_bound_act.
Qed.

(** The last [n] elements. *)
Definition keep_last {A : Type} (n : nat) (l : list A) : list A :=
  drop (length l - n) l.

Lemma keep_last_app {A : Type} (n : nat) (l r : list A) :
  keep_last n (keep_last n l ++ r) = keep_last n (l ++ r).
Proof.
  unfold keep_last.
  destruct (decide (length l <= n)%nat) as [Hle|Hgt].
  - replace (length l - n)%nat with 0%nat by lia. by rewrite drop_0.
  - rewrite !length_app, length_drop.
    replace (length l - (length l - n) + length r - n)%nat with (length r) by lia.
    rewrite (drop_app (drop _ l)), drop_drop, length_drop.
    rewrite (drop_app l).
    f_equal; f_equal; lia.
Qed.

Lemma pushed_history_current h d :
  (length h <= 20)%nat ->
  pushed_history h (Z.of_nat (length h) - 1) d = keep_last 20 (h ++ [d]).
Proof.
  intros Hh. unfold pushed_history, keep_last, MAX_HISTORY_SIZE. cbv zeta.
  destruct (decide (Z.of_nat (length h) - 1 < Z.of_nat (length h) - 1)); [lia|].
  rewrite length_app. simpl.
  case_decide.
  - replace (length h + 1 - 20)%nat with 1%nat by lia. done.
  - replace (length h + 1 - 20)%nat with 0%nat by lia. done.
Qed.

(** The states a session passes through, one per mutation. *)
Fixpoint session_states (ms : list Mutation) (s : NoteWindow) : list NoteWindow :=
  match ms with
  | [] => []
  | m :: ms' => mutate m s :: session_states ms' (mutate m s)
  end.

Lemma session_states_length ms s : length (session_states ms s) = length ms.
Proof. revert s. induction ms as [|m ms IH]; intros s; simpl; [done|]. by rewrite IH. Qed.

Lemma recorded_history ms s :
  history_current s -> (length (_history s) <= 20)%nat ->
  forallb always_records ms = true ->
  _history (mutate_all ms s)
  = keep_last 20 (_history s ++ map snapshot (session_states ms s)).
Proof.
  revert s. induction ms as [|m ms IH]; intros s Hc Hlen Hall; simpl.
  - rewrite app_nil_r. unfold keep_last.
    replace (length (_history s) - 20)%nat with 0%nat by lia. done.
  - simpl in Hall. apply andb_true_iff in Hall as [Hm Hall].
    unfold mutate_all in *. rewrite IH; [| |by apply history_bound_mutate|done].
    2: by apply history_current_mutate.
    destruct (mutate_always_records m s Hm) as (p & Hp & Hhp).
    apply hist_core_eq in Hhp as [Hp1 Hp2].
    assert (_history (mutate m s) = keep_last 20 (_history s ++ [snapshot (mutate m s)]))
      as ->.
    { rewrite Hp at 1. rewrite save_data_true_history, Hp1, Hp2.
      destruct Hc as [-> _]. rewrite pushed_history_current by done.
      by rewrite Hp, save_data_snapshot. }
    rewrite keep_last_app. by rewrite <- app_assoc.
Qed.

(** The index points at the record that equals the live document. *)
Definition history_synced (s : NoteWindow) : Prop :=
  0 <= _history_index s < Z.of_nat (length (_history s))
  /\ py_index (_history s) (_history_index s) = Some (snapshot s).

Lemma history_current_synced s :
  history_current s -> _history s <> [] -> history_synced s.
Proof.
  intros [Hi Hl] Hne. destruct Hl as [?|Hl]; [done|].
  split.
  - destruct (_history s); [done|]. simpl in *. lia.
  - rewrite Hi. by apply py_index_last.
Qed.

Lemma undo_synced s :
  history_synced s ->
  history_synced (_undo s)
  /\ _history (_undo s) = _history s
  /\ _history_index (_undo s) = Z.max 0 (_history_index s - 1).
Proof.
  intros [Hi Hs].
  destruct (decide (_history_index s <= 0)) as [H0|Hpos].
  - rewrite undo_noop by done. repeat split; [lia|lia|done|lia].
  - destruct (py_index_in_range (_history s) (_history_index s - 1)) as [d Hd]; [lia|].
    destruct (undo_step s d) as [Hsu Hhu]; [lia|done|].
    apply (f_equal fst) in Hhu as Hh1. apply (f_equal snd) in Hhu as Hh2.
    simpl in Hh1, Hh2. unfold history_synced.
    rewrite Hh1, Hh2, Hsu. repeat split; [lia|lia|done|lia].
Qed.

Lemma iter_undo_synced k s :
  history_synced s ->
  history_synced (Nat.iter k _undo s)
  /\ _history (Nat.iter k _undo s) = _history s
  /\ _history_index (Nat.iter k _undo s) = Z.max 0 (_history_index s - Z.of_nat k).
Proof.
  intros Hs. induction k as [|k (IH1 & IH2 & IH3)].
  - simpl. split; [done|]. split; [done|]. destruct Hs as [Hi _]. lia.
  - rewrite Nat.iter_succ.
    destruct (undo_synced _ IH1) as (H1 & H2 & H3).
    split; [done|]. split; [by rewrite H2|]. rewrite H3, IH3. lia.
Qed.

Lemma lookup_map {A B : Type} (f : A -> B) (l : list A) (i : nat) :
  map f l !! i = f <$> l !! i.
Proof. revert i. induction l as [|x l IH]; intros [|i]; simpl; done. Qed.

Lemma save_data_evicts p :
  _history_index p = Z.of_nat (length (_history p)) - 1 ->
  length (_history p) = 20%nat ->
  _history (_save_data true p) = drop 1 (_history p) ++ [snapshot p].
Proof.
  intros Hi Hlen. rewrite save_data_true_history, Hi.
  rewrite pushed_history_current by lia. unfold keep_last.
  rewrite length_app, Hlen. simpl.
  rewrite drop_app_le by lia. done.
Qed.

(** C2. History bound and eviction.  In every state a session can reach
    the history holds at most [MAX_HISTORY_SIZE] = 20 records; a push on a
    full history drops the oldest record and appends the new one.  After 21
    recording mutations in a row the history holds 20 records, those of
    pushes #2 to #21; 19 or more calls of [_undo()] leave the live document
    equal to the snapshot of push #2 with the index at 0, one more
    [_undo()] changes nothing, and whatever the number of calls the live
    document is one of the 20 retained records. *)
Theorem history_bound_and_eviction (scr : Screen) (d : Document)
    (acts : list Action) (ms : list Mutation) :
  forallb always_records ms = true ->
  length ms = 21%nat ->
  let sts := session_states ms (NoteWindow_init scr d) in
  let s := mutate_all ms (NoteWindow_init scr d) in
  (length (_history (run acts (NoteWindow_init scr d))) <= 20)%nat
  /\ (forall p, _history_index p = Z.of_nat (length (_history p)) - 1 ->
        length (_history p) = 20%nat ->
        _history (_save_data true p) = drop 1 (_history p) ++ [snapshot p])
  /\ length (_history s) = 20%nat
  /\ _history s = map snapshot (drop 1 sts)
  /\ (forall k, (19 <= k)%nat ->
        Some (snapshot (Nat.iter k _undo s)) = snapshot <$> sts !! 1%nat
        /\ _history_index (Nat.iter k _undo s) = 0
        /\ _undo (Nat.iter k _undo s) = Nat.iter k _undo s)
  /\ (forall k, _history (Nat.iter k _undo s) = _history s
        /\ snapshot (Nat.iter k _undo s) ∈ _history s).
Proof.
  intros Hall Hlen sts s.
  split; [apply history_bound_run|]. split; [apply save_data_evicts|].
  assert (_history s = map snapshot (drop 1 sts)) as Hh.
  { unfold s. rewrite recorded_history; [|apply history_current_init| |done].
    2: { destruct (init_history scr d) as [-> _]. simpl. lia. }
    destruct (init_history scr d) as [-> _]. unfold keep_last. simpl.
    rewrite length_map, session_states_length, Hlen. simpl.
    fold sts. destruct sts; done. }
  assert (length (_history s) = 20%nat) as Hl.
  { rewrite Hh, length_map, length_drop. unfold sts.
    rewrite session_states_length, Hlen. done. }
  assert (history_synced s) as Hsync.
  { apply history_current_synced.
    - apply history_current_mutate_all, history_current_init.
    - intros Hnil. rewrite Hnil in Hl. done. }
  assert (_history_index s = 19) as Hi.
  { assert (history_current s) as [Hc _]
      by apply history_current_mutate_all, history_current_init.
    rewrite Hc, Hl. done. }
  repeat split; try done.
  - destruct (iter_undo_synced k s Hsync) as ([_ Hp] & H2 & H3).
    rewrite H3, Hi, H2 in Hp. replace (Z.max 0 (19 - Z.of_nat k)) with 0 in Hp by lia.
    rewrite py_index_nonneg in Hp by lia. simpl in Hp.
    rewrite Hh, lookup_map, lookup_drop in Hp. simpl in Hp. done.
  - destruct (iter_undo_synced k s Hsync) as (_ & _ & H3). rewrite H3, Hi. lia.
  - apply undo_noop.
    destruct (iter_undo_synced k s Hsync) as (_ & _ & H3). rewrite H3, Hi. lia.
  - by destruct (iter_undo_synced k s Hsync) as (_ & H2 & _).
  - destruct (iter_undo_synced k s Hsync) as ([Hr Hp] & H2 & _).
    rewrite py_index_nonneg in Hp by lia.
    rewrite <- H2. eapply list_elem_of_lookup_2. exact Hp.
Qed.

Lemma history_bound_and_eviction_witness :
  let scr := screen_hd in
  let d := DEFAULT_CONFIG in
  let ms := replicate 21 (AddItem None "t") in
  let sts := session_states ms (NoteWindow_init scr d) in
  let s := mutate_all ms (NoteWindow_init scr d) in
  (length (_history (run [Mutate (AddItem None "t"); Undo; Redo; AutoSave]
                       (NoteWindow_init scr d))) <= 20)%nat
  /\ (forall p, _history_index p = Z.of_nat (length (_history p)) - 1 ->
        length (_history p) = 20%nat ->
        _history (_save_data true p) = drop 1 (_history p) ++ [snapshot p])
  /\ length (_history s) = 20%nat
  /\ _history s = map snapshot (drop 1 sts)
  /\ (forall k, (19 <= k)%nat ->
        Some (snapshot (Nat.iter k _undo s)) = snapshot <$> sts !! 1%nat
        /\ _history_index (Nat.iter k _undo s) = 0
        /\ _undo (Nat.iter k _undo s) = Nat.iter k _undo s)
  /\ (forall k, _history (Nat.iter k _undo s) = _history s
        /\ snapshot (Nat.iter k _undo s) ∈ _history s).
Proof.
  apply (history_bound_and_eviction screen_hd DEFAULT_CONFIG
           [Mutate (AddItem None "t"); Undo; Redo; AutoSave]
           (replicate 21 (AddItem None "t"))); reflexivity.
Defined.

(** The scenario run: 21 additions to an empty list, then 19 undos show
    the two items of push #2, and a 20th undo shows the same. *)
Example undo_reaches_push_2 :
  let s := mutate_all (replicate 21 (AddItem None "t")) (NoteWindow_init screen_hd DEFAULT_CONFIG) in
  length (_history s) = 20%nat
  /\ ids (Nat.iter 19 _undo s) = [1; 2]
  /\ ids (Nat.iter 20 _undo s) = [1; 2]
  /\ ids (Nat.iter 18 _undo s) = [1; 2; 3].
Proof. vm_compute. done. Qed.

(** ** Ids under [_add_item] and [_delete_item] *)

Lemma map_fmap {A B : Type} (f : A -> B) (l : list A) : map f l = f <$> l.
Proof. reflexivity. Qed.

(** No dangling item address: Python guarantees it, the stores have to
    state it. *)
Definition heap_wf (s : NoteWindow) : Prop :=
  Forall (fun l => (l < length (item_heap s))%nat) (data_items s).

(** The operations of the id claims. *)
Inductive ListOp : Type :=
  | OpAdd (after_id : option Z) (now : string)
  | OpDelete (id : Z).

Definition apply_op (o : ListOp) (s : NoteWindow) : NoteWindow :=
  match o with
  | OpAdd after_id now => _add_item after_id now s
  | OpDelete id => _delete_item id s
  end.

Definition apply_ops (ops : list ListOp) (s : NoteWindow) : NoteWindow :=
  fold_left (fun s o => apply_op o s) ops s.

Lemma write_text_item_id l t s l' :
  item_id (item_at (write_text l t s) l') = item_id (item_at s l').
Proof.
  unfold write_text, item_at. simpl.
  rewrite list_lookup_total_insert. case_decide as H; [|done].
  destruct H as [-> _]. done.
Qed.

Lemma save_all_texts_item_id s l :
  item_id (item_at (_save_all_texts s) l) = item_id (item_at s l).
Proof.
  unfold _save_all_texts.
  apply (fold_left_invariant
           (fun s' => item_id (item_at s' l) = item_id (item_at s l))); [done|].
  intros a w <-. apply write_text_item_id.
Qed.

Lemma ids_save_all_texts s : ids (_save_all_texts s) = ids s.
Proof.
  unfold ids. destruct (save_all_texts_frame s) as (_ & -> & _).
  apply map_ext. intros l. apply save_all_texts_item_id.
Qed.

Lemma heap_wf_save_all_texts s : heap_wf s -> heap_wf (_save_all_texts s).
Proof.
  unfold heap_wf. destruct (save_all_texts_frame s) as (_ & -> & _ & _ & _ & _ & ->).
  done.
Qed.

Lemma fold_left_max_ge l a :
  a <= fold_left Z.max l a /\ forall x, x ∈ l -> x <= fold_left Z.max l a.
Proof.
  revert a. induction l as [|y l IH]; intros a; simpl.
  - split; [lia|]. intros x Hx. by apply elem_of_nil in Hx.
  - destruct (IH (Z.max a y)) as [H1 H2]. split; [lia|].
    intros x [->|Hx]%elem_of_cons; [lia|by apply H2].
Qed.

Lemma fold_left_max_in l a : fold_left Z.max l a = a \/ fold_left Z.max l a ∈ l.
Proof.
  revert a. induction l as [|y l IH]; intros a; simpl; [by left|].
  destruct (IH (Z.max a y)) as [H|H].
  - rewrite H. destruct (Z.max_spec a y) as [[_ ->]|[_ ->]]; [right; left|by left].
  - right. by right.
Qed.

(** [max(l, default=0) + 1] is 1 on the empty list, and otherwise one more
    than an element of [l] that bounds all the others. *)
Lemma py_max_default_spec l :
  (l = [] -> py_max_default l 0 + 1 = 1)
  /\ (l <> [] -> py_max_default l 0 ∈ l)
  /\ (forall x, x ∈ l -> x < py_max_default l 0 + 1).
Proof.
  destruct l as [|a l]; simpl.
  - repeat split; [done|]. intros x Hx. by apply elem_of_nil in Hx.
  - destruct (fold_left_max_ge l a) as [H1 H2].
    repeat split; [done| |].
    + intros _. destruct (fold_left_max_in l a) as [->|H]; [left|by right].
    + intros x [->|Hx]%elem_of_cons; [lia|]. specialize (H2 x Hx). lia.
Qed.

Lemma item_at_alloc s it l :
  (l < length (item_heap s))%nat ->
  item_at (set_item_heap (item_heap s ++ [it]) s) l = item_at s l.
Proof. intros H. unfold item_at. simpl. by rewrite lookup_total_app_l. Qed.

Lemma item_at_alloc_new s it :
  item_at (set_item_heap (item_heap s ++ [it]) s) (length (item_heap s)) = it.
Proof.
  unfold item_at. simpl. rewrite lookup_total_app_r by lia. by rewrite Nat.sub_diag.
Qed.

(** Where [_add_item] puts the new element, in a list that runs parallel
    to [data['items']]. *)
Definition add_position {A : Type} (after_id : option Z) (idl : list Z)
    (x : A) (l : list A) : list A :=
  match after_id with
  | Some a =>
      match index_of a idl with
      | Some i => py_insert (i + 1) x l
      | None => l ++ [x]
      end
  | None => l ++ [x]
  end.

Lemma map_py_insert {A B : Type} (f : A -> B) i x l :
  map f (py_insert i x l) = py_insert i (f x) (map f l).
Proof.
  unfold py_insert. rewrite map_app. simpl.
  by rewrite !map_fmap, fmap_take, fmap_drop.
Qed.

Lemma map_add_position {A B : Type} (f : A -> B) a idl x l :
  map f (add_position a idl x l) = add_position a idl (f x) (map f l).
Proof.
  unfold add_position. repeat case_match; by rewrite ?map_py_insert, ?map_app.
Qed.


Lemma reload_save_core b f t :
  data_core (_save_data b (_load_items f t)) = data_core t.
Proof. rewrite save_data_core. apply load_items_core. Qed.

Lemma heap_wf_core s s' : data_core s' = data_core s -> heap_wf s -> heap_wf s'.
Proof.
  intros H Hs. apply data_core_eq in H as (H1 & H2 & _).
  unfold heap_wf. by rewrite H1, H2.
Qed.

Lemma next_id_save_all_texts s : next_id (_save_all_texts s) = next_id s.
Proof. unfold next_id. by rewrite ids_save_all_texts. Qed.

Lemma ids_alloc s it :
  heap_wf s -> ids (set_item_heap (item_heap s ++ [it]) s) = ids s.
Proof.
  intros Hwf. unfold ids.
  change (data_items (set_item_heap (item_heap s ++ [it]) s)) with (data_items s).
  apply map_ext_in. intros l Hl%list_elem_of_In.
  rewrite item_at_alloc; [done|]. unfold heap_wf in Hwf.
  rewrite Forall_forall in Hwf. by apply Hwf.
Qed.

Lemma add_item_data_spec a now s :
  heap_wf s ->
  data_items (add_item_data a now s)
  = add_position a (ids s) (length (item_heap s)) (data_items s)
  /\ item_heap (add_item_data a now s)
     = item_heap (_save_all_texts s) ++ [mkItem (next_id s) "" false now].
Proof.
  intros Hwf. unfold add_item_data. cbv zeta.
  rewrite ids_alloc by (by apply heap_wf_save_all_texts).
  rewrite ids_save_all_texts, next_id_save_all_texts.
  destruct (save_all_texts_frame s) as (_ & Hd & _ & _ & _ & _ & Hlen).
  unfold add_position. repeat case_match; simpl; by rewrite Hd, Hlen.
Qed.

Lemma heap_wf_add_position a idl l (n : nat) :
  Forall (fun x => (x < n)%nat) l ->
  Forall (fun x => (x < S n)%nat) (add_position a idl n l).
Proof.
  intros Hl.
  assert (Forall (fun x => (x < S n)%nat) l) as Hl'.
  { eapply Forall_impl; [exact Hl|]. simpl. lia. }
  unfold add_position, py_insert.
  repeat case_match; rewrite ?Forall_app, ?Forall_cons; repeat split;
    try (by apply Forall_take); try (by apply Forall_drop); try done; lia.
Qed.

Lemma heap_wf_add_item_data a now s :
  heap_wf s -> heap_wf (add_item_data a now s).
Proof.
  intros Hwf. destruct (add_item_data_spec a now s Hwf) as [Hd Hh].
  unfold heap_wf. rewrite Hd, Hh, length_app. simpl.
  destruct (save_all_texts_frame s) as (_ & _ & _ & _ & _ & _ & ->).
  replace (length (item_heap s) + 1)%nat with (S (length (item_heap s))) by lia.
  by apply heap_wf_add_position.
Qed.

Lemma ids_add_item_data a now s :
  heap_wf s ->
  ids (add_item_data a now s) = add_position a (ids s) (next_id s) (ids s).
Proof.
  intros Hwf. destruct (add_item_data_spec a now s Hwf) as [Hd Hh].
  unfold ids at 1. rewrite Hd, map_add_position. f_equal.
  - unfold item_at. rewrite Hh.
    destruct (save_all_texts_frame s) as (_ & _ & _ & _ & _ & _ & <-).
    rewrite lookup_total_app_r by lia. by rewrite Nat.sub_diag.
  - rewrite <- (ids_save_all_texts s). unfold ids.
    destruct (save_all_texts_frame s) as (_ & -> & _ & _ & _ & _ & Hlen).
    apply map_ext_in. intros l Hl%list_elem_of_In.
    unfold item_at. rewrite Hh. rewrite lookup_total_app_l; [done|].
    rewrite Hlen. unfold heap_wf in Hwf. rewrite Forall_forall in Hwf. by apply Hwf.
Qed.

Lemma ids_add_item a now s :
  heap_wf s ->
  ids (_add_item a now s) = add_position a (ids s) (next_id s) (ids s).
Proof.
  intros Hwf. unfold _add_item.
  rewrite (ids_core _ _ (reload_save_core true false _)).
  by apply ids_add_item_data.
Qed.

Lemma heap_wf_add_item a now s : heap_wf s -> heap_wf (_add_item a now s).
Proof.
  intros Hwf. unfold _add_item.
  apply (heap_wf_core _ _ (reload_save_core true false _)).
  by apply heap_wf_add_item_data.
Qed.

Lemma map_filter_comm {A B : Type} (f : A -> B) (P : B -> Prop)
    `{!forall y, Decision (P y)} (l : list A) :
  map f (filter (fun x => P (f x)) l) = filter P (map f l).
Proof.
  induction l as [|x l IH]; [done|]. simpl.
  rewrite !filter_cons. case_decide; simpl; by rewrite IH.
Qed.

Lemma ids_delete_item_data id s :
  ids (delete_item_data id s) = filter (fun i => i ≠ id) (ids s).
Proof.
  rewrite <- (ids_save_all_texts s).
  unfold delete_item_data, ids. cbv zeta.
  exact (map_filter_comm (fun l => item_id (item_at (_save_all_texts s) l))
           (fun i => i ≠ id) (data_items (_save_all_texts s))).
Qed.

Lemma ids_delete_item id s :
  ids (_delete_item id s) = filter (fun i => i ≠ id) (ids s).
Proof.
  unfold _delete_item.
  rewrite (ids_core _ _ (reload_save_core true false _)).
  apply ids_delete_item_data.
Qed.

Lemma heap_wf_delete_item id s : heap_wf s -> heap_wf (_delete_item id s).
Proof.
  intros Hwf. unfold _delete_item.
  apply (heap_wf_core _ _ (reload_save_core true false _)).
  unfold delete_item_data, heap_wf. cbv zeta. simpl.
  destruct (save_all_texts_frame s) as (_ & Hd & _ & _ & _ & _ & Hlen).
  apply Forall_forall. intros l [_ Hl]%list_elem_of_filter.
  rewrite Hlen. rewrite Hd in Hl.
  unfold heap_wf in Hwf. rewrite Forall_forall in Hwf. by apply Hwf.
Qed.

Lemma add_position_perm {A : Type} a idl (x : A) l :
  add_position a idl x l ≡ₚ x :: l.
Proof.
  unfold add_position, py_insert.
  repeat case_match.
  - rewrite <- Permutation_middle. by rewrite take_drop.
  - by rewrite Permutation_app_comm.
  - by rewrite Permutation_app_comm.
Qed.

Lemma next_id_fresh s : forall i, i ∈ ids s -> i < next_id s.
Proof. unfold next_id. apply py_max_default_spec. Qed.

Lemma NoDup_ids_add_item a now s :
  heap_wf s -> NoDup (ids s) -> NoDup (ids (_add_item a now s)).
Proof.
  intros Hwf Hnd. rewrite ids_add_item by done.
  rewrite add_position_perm. apply NoDup_cons. split; [|done].
  intros Hin. apply next_id_fresh in Hin. lia.
Qed.

Lemma NoDup_ids_delete_item id s :
  NoDup (ids s) -> NoDup (ids (_delete_item id s)).
Proof. intros Hnd. rewrite ids_delete_item. by apply NoDup_filter. Qed.

Lemma apply_ops_invariant ops s :
  heap_wf s -> NoDup (ids s) ->
  heap_wf (apply_ops ops s) /\ NoDup (ids (apply_ops ops s)).
Proof.
  intros Hwf Hnd. unfold apply_ops.
  apply (fold_left_invariant (fun s => heap_wf s /\ NoDup (ids s))); [done|].
  intros t [a now|id] [Ht1 Ht2]; simpl.
  - split; [by apply heap_wf_add_item|by apply NoDup_ids_add_item].
  - split; [by apply heap_wf_delete_item|by apply NoDup_ids_delete_item].
Qed.

Lemma heap_wf_fields d : heap_wf (NoteWindow_fields d).
Proof.
  unfold heap_wf, NoteWindow_fields. simpl.
  apply Forall_forall. intros l Hl%elem_of_seq. lia.
Qed.

Lemma heap_wf_init scr d : heap_wf (NoteWindow_init scr d).
Proof.
  unfold NoteWindow_init, _auto_save.
  apply (heap_wf_core _ _ (reload_save_core false false _)).
  unfold _setup_window. cbv zeta. case_decide; apply heap_wf_fields.
Qed.

Lemma ids_init scr d : ids (NoteWindow_init scr d) = map item_id (items d).
Proof.
  rewrite <- (items_snapshot_init scr d). unfold snapshot, ids. cbn [items].
  by rewrite map_map.
Qed.

(** C4. Id assignment and uniqueness.  [_add_item] gives the new item the
    id [max(ids) + 1] ([next_id]): 1 when the list is empty, otherwise one
    more than an id of the list that no other id exceeds; the id list
    after the call is the old one with that id inserted after [after_id]
    (appended when [after_id] is absent or not found).  Starting from
    pairwise distinct ids, every sequence of [_add_item] / [_delete_item]
    calls leaves the ids of [data['items']] pairwise distinct. *)
Theorem id_assignment_and_uniqueness (s : NoteWindow) (after_id : option Z)
    (now : string) (ops : list ListOp) :
  heap_wf s -> NoDup (ids s) ->
  (ids s = [] -> next_id s = 1)
  /\ (ids s <> [] ->
      next_id s - 1 ∈ ids s /\ forall i, i ∈ ids s -> i <= next_id s - 1)
  /\ ids (_add_item after_id now s) = add_position after_id (ids s) (next_id s) (ids s)
  /\ ids (_add_item after_id now s) ≡ₚ next_id s :: ids s
  /\ NoDup (ids (apply_ops ops s)).
Proof.
  intros Hwf Hnd.
  destruct (py_max_default_spec (ids s)) as (H1 & H2 & H3).
  split; [exact H1|]. split.
  { intros Hne. unfold next_id. split.
    - replace (py_max_default (ids s) 0 + 1 - 1) with (py_max_default (ids s) 0) by lia.
      by apply H2.
    - intros i Hi. specialize (H3 i Hi). lia. }
  split; [by apply ids_add_item|].
  split; [rewrite ids_add_item by done; apply add_position_perm|].
  by apply apply_ops_invariant.
Qed.

Lemma id_assignment_and_uniqueness_witness :
  let s := NoteWindow_init screen_hd doc_ab in
  let ops := [OpAdd None "t"; OpDelete 2; OpAdd (Some 1) "u"] in
  (ids s = [] -> next_id s = 1)
  /\ (ids s <> [] ->
      next_id s - 1 ∈ ids s /\ forall i, i ∈ ids s -> i <= next_id s - 1)
  /\ ids (_add_item (Some 1) "t" s) = add_position (Some 1) (ids s) (next_id s) (ids s)
  /\ ids (_add_item (Some 1) "t" s) ≡ₚ next_id s :: ids s
  /\ NoDup (ids (apply_ops ops s)).
Proof.
  apply (id_assignment_and_uniqueness (NoteWindow_init screen_hd doc_ab) (Some 1) "t"
           [OpAdd None "t"; OpDelete 2; OpAdd (Some 1) "u"]).
  - unfold heap_wf. apply (bool_decide_unpack _). vm_compute. exact I.
  - apply (bool_decide_unpack _). vm_compute. exact I.
Defined.

Example ids_after_ops :
  ids (apply_ops [OpAdd None "t"; OpDelete 2; OpAdd (Some 1) "u"] (NoteWindow_init screen_hd doc_ab))
  = [1; 4; 3].
Proof. vm_compute. reflexivity. Qed.

(** ** Reuse of ids *)









(** ** [_swap_items] *)

Lemma index_of_Some {A : Type} `{EqDecision A} (x : A) (l : list A) (i : nat) :
  index_of x l = Some i -> l !! i = Some x.
Proof.
  revert i. induction l as [|y l IH]; intros i; simpl; [done|].
  case_decide as Hy.
  - intros [= <-]. by rewrite Hy.
  - destruct (index_of x l) as [j|]; simpl; [|done].
    intros [= <-]. by apply IH.
Qed.





Example swap_first_up_declines :
  _swap_items 1 (-1) (NoteWindow_init screen_hd doc_abc) = NoteWindow_init screen_hd doc_abc.
Proof. vm_compute. reflexivity. Qed.

Example swap_last_down_declines :
  _swap_items 3 1 (NoteWindow_init screen_hd doc_abc) = NoteWindow_init screen_hd doc_abc.
Proof. vm_compute. reflexivity. Qed.

Example swap_unknown_id_declines :
  _swap_items 7 1 (NoteWindow_init screen_hd doc_abc) = NoteWindow_init screen_hd doc_abc.
Proof. vm_compute. reflexivity. Qed.

Example swap_down_moves :
  ids (_swap_items 1 1 (NoteWindow_init screen_hd doc_abc)) = [2; 1; 3]
  /\ length (_history (_swap_items 1 1 (NoteWindow_init screen_hd doc_abc))) = 1%nat.
Proof. vm_compute. split; reflexivity. Qed.

(** ** The insertion index of a drag step *)

(** The claim in the spec's words: the number of rows, the dragged one
    left out, whose midpoint lies above the pointer. *)
Definition spec_insert_index (geom : Geometry) (dragged : wref) (y_pos : Z)
    (ws : list wref) : nat :=
  length (filter (fun w => w ≠ dragged /\ midpoint geom w < y_pos) ws).

(** Midpoints grow down the list, as they do for rows packed one under the
    other. *)
Definition midpoints_ascending (geom : Geometry) (ws : list wref) : Prop :=
  forall i j wi wj, (i <= j)%nat -> ws !! i = Some wi -> ws !! j = Some wj ->
    midpoint geom wi <= midpoint geom wj.

(** Rows of height 20 stacked from the top of the screen. *)
Definition rows_geom : Geometry := fun w => (Z.of_nat w * 20, 20).

(** C8, as stated, fails: the scan of [_get_insert_position] does not skip
    the dragged row.  With midpoints 10, 30, 50, dragging the first row
    with the pointer at 40, the code answers 2, while one row other than
    the dragged one has its midpoint above the pointer; the code then
    moves the row to index 1. *)
Lemma insert_index_counts_dragged :
  let s := NoteWindow_init screen_hd doc_abc in
  todo_widgets s = [0; 1; 2]%nat
  /\ map (midpoint rows_geom) (todo_widgets s) = [10; 30; 50]
  /\ _get_insert_position rows_geom 40 s = 2%nat
  /\ spec_insert_index rows_geom 0%nat 40 (todo_widgets s) = 1%nat
  /\ todo_widgets (_handle_item_drag rows_geom 0%nat 40 s) = [1; 0; 2]%nat.
Proof. vm_compute. repeat split; reflexivity. Qed.

Lemma insert_position_from_spec geom y ws i :
  let r := insert_position_from geom y i ws in
  (i <= r <= i + length ws)%nat
  /\ (forall j w, (j < r - i)%nat -> ws !! j = Some w -> midpoint geom w <= y)
  /\ (forall w, ws !! (r - i)%nat = Some w -> y < midpoint geom w).
Proof.
  revert i. induction ws as [|w0 ws IH]; intros i; simpl.
  - split; [lia|]. split.
    + intros j w Hj. lia.
    + intros w. by rewrite lookup_nil.
  - case_decide as Hy.
    + split; [lia|]. split.
      * intros j w Hj. lia.
      * intros w. rewrite Nat.sub_diag. simpl. by intros [= <-].
    + destruct (IH (S i)) as (Hr & Hbefore & Hat).
      set (r := insert_position_from geom y (S i) ws) in *.
      split; [lia|]. split.
      * intros [|j] w Hj; simpl.
        -- intros [= <-]. lia.
        -- apply Hbefore. lia.
      * intros w. replace (r - i)%nat with (S (r - S i)) by lia. simpl. apply Hat.
Qed.

Lemma midpoints_ascending_tail geom w ws :
  midpoints_ascending geom (w :: ws) ->
  midpoints_ascending geom ws
  /\ forall w', w' ∈ ws -> midpoint geom w <= midpoint geom w'.
Proof.
  intros H. split.
  - intros i j wi wj Hij Hi Hj. by apply (H (S i) (S j) wi wj); [lia| |].
  - intros w' [j Hj]%list_elem_of_lookup. by apply (H 0%nat (S j) w w'); [lia| |].
Qed.

Lemma filter_none {A : Type} (P : A -> Prop) `{!forall x, Decision (P x)} (l : list A) :
  (forall x, x ∈ l -> ~ P x) -> filter P l = [].
Proof.
  induction l as [|x l IH]; intros Hall; [done|].
  rewrite filter_cons. rewrite decide_False by (apply Hall; left).
  apply IH. intros y Hy. apply Hall. by right.
Qed.

Lemma insert_position_from_count geom y ws i :
  midpoints_ascending geom ws ->
  insert_position_from geom y i ws
  = (i + length (filter (fun w => (midpoint geom w <= y)%Z) ws))%nat.
Proof.
  revert i. induction ws as [|w ws IH]; intros i Hasc; simpl; [lia|].
  destruct (midpoints_ascending_tail geom w ws Hasc) as [Htail Hhead].
  rewrite filter_cons. case_decide as Hy.
  - rewrite decide_False by lia.
    rewrite filter_none; [simpl; lia|].
    intros w' Hw'. specialize (Hhead w' Hw'). lia.
  - rewrite decide_True by lia. rewrite IH by done. simpl. lia.
Qed.

Lemma handle_item_drag_todo_widgets geom widget y s c :
  index_of widget (todo_widgets s) = Some c ->
  let r := _get_insert_position geom y s in
  let s' := _handle_item_drag geom widget y s in
  if decide (r = c \/ r = S c) then
    todo_widgets s' = todo_widgets s /\ trace s' = trace s
  else
    todo_widgets s'
    = py_insert (if decide (r <= c)%nat then r else (r - 1)%nat) widget
        (py_remove widget (todo_widgets s))
    /\ trace s'
       = trace s ++
         [EvPackForget (SlaveItem widget);
          EvPack (SlaveItem widget)
            (Some (match todo_widgets s !! r with
                   | Some target => SlaveItem target
                   | None => SlavePlaceholder
                   end))].
Proof.
  intros Hc r s'. unfold s', _handle_item_drag. cbv zeta.
  set (s1 := match _dragging_widget s with
             | Some _ => s
             | None => set_dragging_widget (Some widget) s
             end).
  assert (todo_widgets s1 = todo_widgets s /\ trace s1 = trace s) as [Htw Htr]
    by (unfold s1; by destruct (_dragging_widget s)).
  assert (_get_insert_position geom y s1 = r) as ->
    by (unfold r, _get_insert_position; by rewrite Htw).
  rewrite Htw, Hc. replace (c + 1)%nat with (S c) by lia.
  destruct (decide (r = c \/ r = S c)) as [Hnoop|Hmove].
  - rewrite decide_False by lia. done.
  - rewrite decide_True by lia. simpl. rewrite Htw, Htr. split; [done|].
    do 4 f_equal. case_decide as Hr.
    + by rewrite (list_lookup_lookup_total_lt _ _ Hr).
    + by rewrite lookup_ge_None_2 by lia.
Qed.

(** C8, amended.  [_get_insert_position] answers the first index, in the
    current view order and with the dragged row taking part, whose row has
    its midpoint strictly below the pointer ([y_pos < midpoint]); it
    answers the length of the list when there is none.  When the midpoints
    grow down the list this is the number of rows, the dragged one
    included, whose midpoint is at or above the pointer.  The row is moved
    only when the index differs from both its current index and its current
    index + 1: in that case it is packed before the row at the insertion
    index (before the placeholder at the end) and re-inserted in
    [todo_widgets]; otherwise nothing is repacked and the list stays. *)
Theorem insert_index_and_relocation (geom : Geometry) (widget : wref)
    (y_pos : Z) (s : NoteWindow) :
  let ws := todo_widgets s in
  let r := _get_insert_position geom y_pos s in
  (r <= length ws)%nat
  /\ (forall j w, (j < r)%nat -> ws !! j = Some w -> midpoint geom w <= y_pos)
  /\ (forall w, ws !! r = Some w -> y_pos < midpoint geom w)
  /\ (midpoints_ascending geom ws ->
      r = length (filter (fun w => midpoint geom w <= y_pos) ws))
  /\ (forall c, index_of widget ws = Some c ->
        let s' := _handle_item_drag geom widget y_pos s in
        if decide (r = c \/ r = S c) then
          todo_widgets s' = ws /\ trace s' = trace s
        else
          todo_widgets s'
          = py_insert (if decide (r <= c)%nat then r else (r - 1)%nat) widget
              (py_remove widget ws)
          /\ trace s'
             = trace s ++
               [EvPackForget (SlaveItem widget);
                EvPack (SlaveItem widget)
                  (Some (match ws !! r with
                         | Some target => SlaveItem target
                         | None => SlavePlaceholder
                         end))]).
Proof.
  intros ws r.
  pose proof (insert_position_from_spec geom y_pos ws 0) as H. cbv zeta in H.
  change (insert_position_from geom y_pos 0 ws) with r in H.
  destruct H as (H1 & H2 & H3). rewrite Nat.sub_0_r in H2, H3.
  split; [lia|]. split; [exact H2|]. split; [exact H3|]. split.
  - intros Hasc. unfold r, _get_insert_position.
    by rewrite insert_position_from_count.
  - intros c Hc. by apply handle_item_drag_todo_widgets.
Qed.

Lemma insert_index_and_relocation_witness :
  let s := NoteWindow_init screen_hd doc_abc in
  let ws := todo_widgets s in
  let r := _get_insert_position rows_geom 40 s in
  (r <= length ws)%nat
  /\ (forall j w, (j < r)%nat -> ws !! j = Some w -> midpoint rows_geom w <= 40)
  /\ (forall w, ws !! r = Some w -> 40 < midpoint rows_geom w)
  /\ (midpoints_ascending rows_geom ws ->
      r = length (filter (fun w => midpoint rows_geom w <= 40) ws))
  /\ (forall c, index_of 0%nat ws = Some c ->
        let s' := _handle_item_drag rows_geom 0%nat 40 s in
        if decide (r = c \/ r = S c) then
          todo_widgets s' = ws /\ trace s' = trace s
        else
          todo_widgets s'
          = py_insert (if decide (r <= c)%nat then r else (r - 1)%nat) 0%nat
              (py_remove 0%nat ws)
          /\ trace s'
             = trace s ++
               [EvPackForget (SlaveItem 0%nat);
                EvPack (SlaveItem 0%nat)
                  (Some (match ws !! r with
                         | Some target => SlaveItem target
                         | None => SlavePlaceholder
                         end))]).
Proof.
  exact (insert_index_and_relocation rows_geom 0%nat 40 (NoteWindow_init screen_hd doc_abc)).
Defined.

(** On the stacked rows of the example the midpoints do grow, so the count
    reading applies: two rows (the dragged one and the second) have their
    midpoint at or above 40. *)
Example rows_geom_ascending :
  midpoints_ascending rows_geom (todo_widgets (NoteWindow_init screen_hd doc_abc)).
Proof.
  intros i j wi wj Hij Hi Hj.
  change (todo_widgets (NoteWindow_init screen_hd doc_abc)) with [0; 1; 2]%nat in Hi, Hj.
  destruct i as [|[|[|i]]]; destruct j as [|[|[|j]]]; simpl in Hi, Hj;
    simplify_eq; try lia; by vm_compute.
Qed.

(** A drop in place: the pointer stays over the dragged row, nothing
    moves. *)
Example drag_in_place :
  let s := NoteWindow_init screen_hd doc_abc in
  todo_widgets (_handle_item_drag rows_geom 1%nat 25 s) = todo_widgets s
  /\ trace (_handle_item_drag rows_geom 1%nat 25 s) = trace s
  /\ todo_widgets (_handle_item_drag rows_geom 1%nat 35 s) = todo_widgets s
  /\ trace (_handle_item_drag rows_geom 1%nat 35 s) = trace s.
Proof. vm_compute. repeat split; reflexivity. Qed.

(** ** A drag gesture *)

(** The documents written by [DataManager.save], in order. *)
Definition saves (tr : list Effect) : list Document :=
  omap (fun e => match e with EvSave d => Some d | _ => None end) tr.

(** C6, as stated, fails: a long press released before any pointer motion
    is a drag for the [TodoItem] ([_is_dragging] was set and
    [_end_dragging] runs), yet [_handle_item_drop] finds
    [_dragging_widget] unset and returns: no push, no save. *)
Lemma drag_without_motion_records_nothing :
  let s := NoteWindow_init screen_hd doc_abc in
  let s' := drag_gesture 1%nat [] s in
  _is_dragging (widget_at (_start_dragging 1%nat s) 1%nat) = true
  /\ _history s = [] /\ _history s' = []
  /\ _history_index s' = -1
  /\ trace s' = trace s
  /\ ids s' = ids s.
Proof. vm_compute. repeat split; reflexivity. Qed.

Lemma saves_app tr1 tr2 : saves (tr1 ++ tr2) = saves tr1 ++ saves tr2.
Proof. unfold saves. apply omap_app. Qed.

Lemma py_remove_perm {A : Type} `{EqDecision A} (x : A) (l : list A) :
  x ∈ l -> x :: py_remove x l ≡ₚ l.
Proof.
  induction l as [|y l IH]; intros Hx; [by apply elem_of_nil in Hx|]. simpl.
  case_decide as Hy; [by rewrite Hy|].
  apply elem_of_cons in Hx as [->|Hx]; [done|].
  rewrite Permutation_swap. by rewrite IH.
Qed.

Lemma py_insert_perm {A : Type} (i : nat) (x : A) (l : list A) :
  py_insert i x l ≡ₚ x :: l.
Proof. unfold py_insert. rewrite <- Permutation_middle. by rewrite take_drop. Qed.

Lemma index_of_elem_of {A : Type} `{EqDecision A} (x : A) (l : list A) (i : nat) :
  index_of x l = Some i -> x ∈ l.
Proof. intros H%index_of_Some. by eapply list_elem_of_lookup_2. Qed.

(** What a drag step may change: the view order, the drag marker and the
    packing; never the document, the history, the widgets or the file. *)
Definition view_only (s s' : NoteWindow) : Prop :=
  data_core s' = data_core s
  /\ hist_core s' = hist_core s
  /\ widget_heap s' = widget_heap s
  /\ todo_widgets s' ≡ₚ todo_widgets s
  /\ saves (trace s') = saves (trace s).

Lemma view_only_refl s : view_only s s.
Proof. by repeat split. Qed.

Lemma view_only_trans s1 s2 s3 : view_only s1 s2 -> view_only s2 s3 -> view_only s1 s3.
Proof.
  intros (A1 & A2 & A3 & A4 & A5) (B1 & B2 & B3 & B4 & B5).
  repeat split; try congruence. by rewrite B4.
Qed.

Lemma handle_item_drag_view_only geom w y s :
  view_only s (_handle_item_drag geom w y s)
  /\ is_Some (_dragging_widget (_handle_item_drag geom w y s)).
Proof.
  unfold _handle_item_drag. cbv zeta.
  set (s1 := match _dragging_widget s with
             | Some _ => s
             | None => set_dragging_widget (Some w) s
             end).
  assert (view_only s s1 /\ is_Some (_dragging_widget s1)) as [Hv Hd].
  { unfold s1. destruct (_dragging_widget s) eqn:E.
    - split; [apply view_only_refl|]. rewrite E. by eexists.
    - split; [by repeat split|]. by eexists. }
  destruct (index_of w (todo_widgets s1)) as [c|] eqn:Hc; [|done].
  case_decide; [|done].
  split; [|exact Hd].
  apply (view_only_trans _ s1); [done|].
  repeat split.
  - simpl. rewrite py_insert_perm. apply py_remove_perm. by eapply index_of_elem_of.
  - simpl. rewrite saves_app. simpl. by rewrite app_nil_r.
Qed.

Lemma drag_moves_view_only w moves s :
  _is_dragging (widget_at s w) = true ->
  view_only s (drag_moves w moves s)
  /\ (moves <> [] -> is_Some (_dragging_widget (drag_moves w moves s))).
Proof.
  unfold drag_moves. revert s.
  induction moves as [|m moves IH]; intros s Hflag; simpl.
  - split; [apply view_only_refl|done].
  - assert (_on_dragging m.1 w m.2 s = _handle_item_drag m.1 w m.2 s) as Hstep
      by (unfold _on_dragging; by rewrite Hflag).
    rewrite Hstep.
    destruct (handle_item_drag_view_only m.1 w m.2 s) as [Hv Hd].
    destruct (IH (_handle_item_drag m.1 w m.2 s)) as [Hv' Hd'].
    { unfold widget_at. destruct Hv as (_ & _ & -> & _). exact Hflag. }
    split; [by apply (view_only_trans _ _ _ Hv)|].
    intros _. destruct moves as [|m' moves]; [exact Hd|]. by apply Hd'.
Qed.

Lemma set_is_dragging_lookup w b s w' :
  item_data (widget_at (set_is_dragging w b s) w') = item_data (widget_at s w').
Proof.
  unfold set_is_dragging, widget_at. simpl.
  rewrite list_lookup_total_insert. case_decide as H; [|done].
  destruct H as [-> _]. done.
Qed.

Lemma set_is_dragging_flag w b s :
  (w < length (widget_heap s))%nat ->
  _is_dragging (widget_at (set_is_dragging w b s) w) = b.
Proof.
  intros Hw. unfold set_is_dragging, widget_at. simpl.
  by rewrite list_lookup_total_insert_eq.
Qed.

Lemma widget_item_id_frame s s' :
  item_heap s' = item_heap s ->
  (forall w, item_data (widget_at s' w) = item_data (widget_at s w)) ->
  forall w, widget_item_id s' w = widget_item_id s w.
Proof.
  intros Hh Hw w. unfold widget_item_id, item_at. by rewrite Hh, Hw.
Qed.

Lemma first_item_with_id_Some s i :
  i ∈ ids s ->
  exists l, first_item_with_id s i = Some l
            /\ item_id (item_at s l) = i /\ l ∈ data_items s.
Proof.
  intros Hi. unfold ids in Hi. rewrite map_fmap in Hi.
  apply list_elem_of_fmap in Hi as (l & -> & Hl).
  destruct (list_find_elem_of (fun l' => item_id (item_at s l') = item_id (item_at s l))
              (data_items s) l Hl eq_refl) as [[j l'] Hfind].
  exists l'. unfold first_item_with_id. rewrite Hfind. simpl.
  apply list_find_Some in Hfind as (Hj & HP & _).
  repeat split; [done|]. by eapply list_elem_of_lookup_2.
Qed.

Lemma ids_of_new_order s ws :
  (forall w, w ∈ ws -> widget_item_id s w ∈ ids s) ->
  map (fun l => item_id (item_at s l))
    (omap (fun w => first_item_with_id s (widget_item_id s w)) ws)
  = map (widget_item_id s) ws
  /\ Forall (fun l => l ∈ data_items s)
       (omap (fun w => first_item_with_id s (widget_item_id s w)) ws).
Proof.
  induction ws as [|w ws IH]; intros H; [by split|].
  destruct (first_item_with_id_Some s (widget_item_id s w)) as (l & Hl & Hid & Hin).
  { apply H. left. }
  destruct IH as [IH1 IH2]. { intros w' Hw'. apply H. by right. }
  assert (omap (fun w => first_item_with_id s (widget_item_id s w)) (w :: ws)
          = l :: omap (fun w => first_item_with_id s (widget_item_id s w)) ws) as ->.
  { cbn [omap list_omap]. by rewrite Hl. }
  split.
  - cbn [map]. by rewrite Hid, IH1.
  - by constructor.
Qed.

Lemma handle_item_drop_dragging w s :
  is_Some (_dragging_widget s) ->
  let s1 := set_dragging_widget None s in
  _handle_item_drop w s
  = _save_data true
      (set_data_items
         (omap (fun w' => first_item_with_id s1 (widget_item_id s1 w')) (todo_widgets s1))
         s1).
Proof. intros [d Hd]. unfold _handle_item_drop. by rewrite Hd. Qed.

Lemma save_data_dragging b s : _dragging_widget (_save_data b s) = _dragging_widget s.
Proof. unfold _save_data. destruct b; repeat case_decide; done. Qed.

(** A gesture with at least one pointer motion: the motions touch the
    view only, the release commits once. *)
Lemma drag_gesture_with_motion (s : NoteWindow) (w : wref)
    (m : Geometry * Z) (ms : list (Geometry * Z)) :
  (w < length (widget_heap s))%nat ->
  (forall w', w' ∈ todo_widgets s -> widget_item_id s w' ∈ ids s) ->
  let s1 := drag_moves w (m :: ms) (_start_dragging w s) in
  let s2 := drag_gesture w (m :: ms) s in
  (snapshot s1 = snapshot s
   /\ _history s1 = _history s /\ _history_index s1 = _history_index s
   /\ saves (trace s1) = saves (trace s)
   /\ todo_widgets s1 ≡ₚ todo_widgets s)
  /\ ids s2 = map (widget_item_id s1) (todo_widgets s1)
  /\ Forall (fun l => l ∈ data_items s) (data_items s2)
  /\ item_heap s2 = item_heap s
  /\ _history s2 = pushed_history (_history s) (_history_index s) (snapshot s2)
  /\ last (_history s2) = Some (snapshot s2)
  /\ saves (trace s2) = saves (trace s) ++ [snapshot s2]
  /\ _dragging_widget s2 = None.
Proof.
  intros Hw Hids. cbv zeta. unfold drag_gesture.
  set (s0 := _start_dragging w s).
  assert (_is_dragging (widget_at s0 w) = true) as Hflag0
    by (by apply set_is_dragging_flag).
  assert (data_core s0 = data_core s /\ hist_core s0 = hist_core s
          /\ todo_widgets s0 = todo_widgets s /\ trace s0 = trace s
          /\ (forall w', item_data (widget_at s0 w') = item_data (widget_at s w')))
    as (A1 & A2 & A3 & A4 & A5).
  { repeat split. intros w'. apply set_is_dragging_lookup. }
  destruct (drag_moves_view_only w (m :: ms) s0 Hflag0) as [Hview Hdrag].
  set (s1 := drag_moves w (m :: ms) s0) in *.
  specialize (Hdrag ltac:(done)).
  destruct Hview as (Hd1 & Hh1 & Hwh1 & Htw1 & Hsv1).
  assert (_is_dragging (widget_at s1 w) = true) as Hflag1
    by (unfold widget_at; rewrite Hwh1; exact Hflag0).
  assert (forall w', item_data (widget_at s1 w') = item_data (widget_at s w')) as B5.
  { intros w'. unfold widget_at. rewrite Hwh1. apply A5. }
  rewrite A1 in Hd1. rewrite A2 in Hh1. rewrite A3 in Htw1. rewrite A4 in Hsv1.
  clearbody s1. clear Hwh1 Hflag0 A1 A2 A3 A4 A5. clearbody s0. clear s0.
  apply hist_core_eq in Hh1 as [Hh Hi].
  unfold _on_checkbox_release. rewrite Hflag1. unfold _end_dragging.
  rewrite handle_item_drop_dragging by exact Hdrag. cbv zeta.
  set (sx := set_dragging_widget None (set_is_dragging w false s1)).
  assert (data_core sx = data_core s) as Hdx by exact Hd1.
  assert (todo_widgets sx = todo_widgets s1) as Htx by reflexivity.
  assert (trace sx = trace s1) as Hrx by reflexivity.
  assert (hist_core sx = hist_core s1) as Hhx by reflexivity.
  assert (_dragging_widget sx = None) as Hdn by reflexivity.
  assert (forall w', item_data (widget_at sx w') = item_data (widget_at s w')) as Hix.
  { intros w'. rewrite <- B5. apply (set_is_dragging_lookup w false s1 w'). }
  clearbody sx.
  assert (forall w', widget_item_id sx w' = widget_item_id s w') as Hwid.
  { apply widget_item_id_frame; [|done]. by apply data_core_eq in Hdx as (-> & _). }
  assert (forall w', widget_item_id s1 w' = widget_item_id s w') as Hwid1.
  { apply widget_item_id_frame; [|done]. by apply data_core_eq in Hd1 as (-> & _). }
  destruct (ids_of_new_order sx (todo_widgets sx)) as [Hnew Hsub].
  { intros w' Hw'. rewrite Hwid, (ids_core _ _ Hdx). apply Hids.
    rewrite Htx in Hw'. by rewrite <- Htw1. }
  set (new_order := omap _ (todo_widgets sx)) in *.
  clearbody new_order.
  set (sy := set_data_items new_order sx).
  assert (item_heap sy = item_heap s) as Hy1
    by (by apply data_core_eq in Hdx as (<- & _)).
  assert (data_items sy = new_order) as Hy2 by reflexivity.
  assert (hist_core sy = hist_core sx) as Hy3 by reflexivity.
  assert (trace sy = trace sx) as Hy4 by reflexivity.
  assert (_dragging_widget sy = _dragging_widget sx) as Hy5 by reflexivity.
  clearbody sy.
  destruct (data_core_eq _ _ (save_data_core true sy)) as (E1 & E2 & _).
  split.
  { split; [by apply snapshot_core|]. done. }
  split.
  { unfold ids. rewrite E2, Hy2.
    erewrite map_ext; [|intros l; unfold item_at; rewrite E1, Hy1; reflexivity].
    apply data_core_eq in Hdx as (Hdx1 & Hdx2 & _).
    unfold item_at in Hnew. rewrite Hdx1 in Hnew. rewrite Hnew, Htx.
    apply map_ext. intros w'. by rewrite Hwid, Hwid1. }
  split.
  { rewrite E2, Hy2. apply data_core_eq in Hdx as (_ & Hdi & _). by rewrite <- Hdi. }
  split; [by rewrite E1|].
  split.
  { rewrite save_data_true_history, save_data_snapshot.
    apply hist_core_eq in Hy3 as [-> ->]. apply hist_core_eq in Hhx as [-> ->].
    by rewrite Hh, Hi. }
  split.
  { rewrite save_data_snapshot. apply save_data_true_last. }
  split.
  { rewrite save_data_trace, save_data_snapshot, saves_app, Hy4, Hrx, Hsv1. done. }
  by rewrite save_data_dragging, Hy5.
Qed.

(** A long press released before any pointer motion: [_handle_item_drop]
    finds [_dragging_widget] unset and returns, so all that happened is
    that the row's [_is_dragging] went up and down again. *)
Lemma drag_gesture_no_motion w s :
  (w < length (widget_heap s))%nat ->
  _dragging_widget s = None ->
  drag_gesture w [] s = set_is_dragging w false (_start_dragging w s).
Proof.
  intros Hw Hnone. unfold drag_gesture, drag_moves. cbn [fold_left].
  unfold _on_checkbox_release.
  unfold _start_dragging at 1. rewrite set_is_dragging_flag by done.
  unfold _end_dragging, _handle_item_drop.
  change (_dragging_widget (set_is_dragging w false (_start_dragging w s)))
    with (_dragging_widget s).
  by rewrite Hnone.
Qed.

(** C6, amended.  Take a gesture on a live row with at least one pointer
    motion.  The motions change the view order (a permutation of the rows)
    and the packing only: the document, the history, its index and the
    file are as before the gesture.  The release rebuilds the order of
    [data['items']] from the view order, row by row through the id (the
    items themselves are the old ones), and ends in exactly one push and
    one save; [_dragging_widget] is cleared.  A release that no motion
    preceded, [_dragging_widget] being unset as it is between gestures, is
    declined by [_handle_item_drop]: no reorder, no push, no save. *)
Theorem drag_gesture_commits_once (s : NoteWindow) (w : wref)
    (m : Geometry * Z) (ms : list (Geometry * Z)) :
  (w < length (widget_heap s))%nat ->
  (forall w', w' ∈ todo_widgets s -> widget_item_id s w' ∈ ids s) ->
  let s1 := drag_moves w (m :: ms) (_start_dragging w s) in
  let s2 := drag_gesture w (m :: ms) s in
  let s3 := drag_gesture w [] s in
  (snapshot s1 = snapshot s
   /\ _history s1 = _history s /\ _history_index s1 = _history_index s
   /\ saves (trace s1) = saves (trace s)
   /\ todo_widgets s1 ≡ₚ todo_widgets s)
  /\ ids s2 = map (widget_item_id s1) (todo_widgets s1)
  /\ Forall (fun l => l ∈ data_items s) (data_items s2)
  /\ item_heap s2 = item_heap s
  /\ _history s2 = pushed_history (_history s) (_history_index s) (snapshot s2)
  /\ last (_history s2) = Some (snapshot s2)
  /\ saves (trace s2) = saves (trace s) ++ [snapshot s2]
  /\ _dragging_widget s2 = None
  /\ (_dragging_widget s = None ->
      snapshot s3 = snapshot s /\ data_items s3 = data_items s
      /\ todo_widgets s3 = todo_widgets s
      /\ _history s3 = _history s /\ _history_index s3 = _history_index s
      /\ trace s3 = trace s).
Proof.
  intros Hw Hids s1 s2 s3.
  destruct (drag_gesture_with_motion s w m ms Hw Hids)
    as (H1 & H2 & H3 & H4 & H5 & H6 & H7 & H8).
  split; [exact H1|]. split; [exact H2|]. split; [exact H3|].
  split; [exact H4|]. split; [exact H5|]. split; [exact H6|].
  split; [exact H7|]. split; [exact H8|].
  intros Hnone. unfold s3. rewrite (drag_gesture_no_motion w s Hw Hnone).
  repeat split.
Qed.

Definition drag_second_to_top : list (Geometry * Z) := [(rows_geom, 5)].

Lemma drag_gesture_commits_once_witness :
  let s := NoteWindow_init screen_hd doc_abc in
  let s1 := drag_moves 1%nat drag_second_to_top (_start_dragging 1%nat s) in
  let s2 := drag_gesture 1%nat drag_second_to_top s in
  let s3 := drag_gesture 1%nat [] s in
  (snapshot s1 = snapshot s
   /\ _history s1 = _history s /\ _history_index s1 = _history_index s
   /\ saves (trace s1) = saves (trace s)
   /\ todo_widgets s1 ≡ₚ todo_widgets s)
  /\ ids s2 = map (widget_item_id s1) (todo_widgets s1)
  /\ Forall (fun l => l ∈ data_items s) (data_items s2)
  /\ item_heap s2 = item_heap s
  /\ _history s2 = pushed_history (_history s) (_history_index s) (snapshot s2)
  /\ last (_history s2) = Some (snapshot s2)
  /\ saves (trace s2) = saves (trace s) ++ [snapshot s2]
  /\ _dragging_widget s2 = None
  /\ (_dragging_widget s = None ->
      snapshot s3 = snapshot s /\ data_items s3 = data_items s
      /\ todo_widgets s3 = todo_widgets s
      /\ _history s3 = _history s /\ _history_index s3 = _history_index s
      /\ trace s3 = trace s).
Proof.
  apply (drag_gesture_commits_once (NoteWindow_init screen_hd doc_abc) 1%nat (rows_geom, 5) []).
  - vm_compute. lia.
  - apply (proj1 (Forall_forall _ _)).
    apply (bool_decide_unpack _). vm_compute. exact I.
Defined.

(** The scenario of the spec: in [[1, 2, 3]] the row of item 2 is dragged
    from index 1 to index 0 and released; the document order is
    [[2, 1, 3]] and the history grew by one record. *)
Example drag_2_to_top :
  let s := NoteWindow_init screen_hd doc_abc in
  let s2 := drag_gesture 1%nat drag_second_to_top s in
  ids s = [1; 2; 3] /\ ids s2 = [2; 1; 3]
  /\ _history s = [] /\ _history s2 = [snapshot s2]
  /\ length (saves (trace s2)) = S (length (saves (trace s))).
Proof. vm_compute. repeat split; reflexivity. Qed.

(** Three motions, still one push. *)
Example drag_three_motions :
  let s := NoteWindow_init screen_hd doc_abc in
  let s2 := drag_gesture 0%nat [(rows_geom, 35); (rows_geom, 55); (rows_geom, 35)] s in
  ids s2 = [2; 1; 3] /\ length (_history s2) = 1%nat
  /\ length (saves (trace s2)) = S (length (saves (trace s))).
Proof. vm_compute. repeat split; reflexivity. Qed.

(** ** The dict of [_load_items] *)

Lemma dict_get_None k d : dict_get k d = None <-> k ∉ map fst d.
Proof.
  induction d as [|[k' v'] d IH]; simpl.
  - split; [intros _; apply not_elem_of_nil|done].
  - case_decide as Hk.
    + split; [done|]. intros H. exfalso. apply H. rewrite Hk. left.
    + rewrite IH, not_elem_of_cons. split; [intros H; split; [congruence|done]|by intros [_ H]].
Qed.

Lemma dict_get_elem_of k w d : (k, w) ∈ d -> is_Some (dict_get k d).
Proof.
  intros H. destruct (dict_get k d) eqn:E; [by eexists|].
  apply dict_get_None in E. exfalso. apply E.
  rewrite map_fmap. by apply (list_elem_of_fmap_2 fst) in H.
Qed.

Lemma dict_get_set k v k' d :
  dict_get k' (dict_set k v d) = if decide (k = k') then Some v else dict_get k' d.
Proof.
  induction d as [|[k0 v0] d IH]; simpl.
  - repeat case_decide; congruence.
  - repeat (case_decide; simpl); try congruence.
Qed.

Lemma dict_set_elem_of k v d k' w' :
  (k', w') ∈ dict_set k v d -> (k', w') ∈ d \/ (k' = k /\ w' = v).
Proof.
  induction d as [|[k0 v0] d IH]; simpl.
  - intros H%list_elem_of_singleton. injection H as -> ->. by right.
  - case_decide as Hk.
    + intros [H|H]%elem_of_cons.
      * injection H as -> ->. by right.
      * left. by right.
    + intros [H|H]%elem_of_cons.
      * injection H as -> ->. left. left.
      * destruct (IH H) as [?|?]; [left; by right|by right].
Qed.

Lemma dict_set_keys k v d :
  map fst (dict_set k v d)
  = if decide (k ∈ map fst d) then map fst d else map fst d ++ [k].
Proof.
  induction d as [|[k0 v0] d IH].
  - cbn [dict_set map fst app]. destruct (decide (k ∈ [])) as [H|_]; [|done].
    by apply elem_of_nil in H.
  - cbn [dict_set map fst]. destruct (decide (k0 = k)) as [Hk|Hk].
    + cbn [map fst]. destruct (decide (k ∈ k0 :: map fst d)) as [_|H]; [done|].
      exfalso. apply H. rewrite Hk. left.
    + cbn [map fst]. rewrite IH.
      destruct (decide (k ∈ map fst d)) as [Hin|Hnin];
        destruct (decide (k ∈ k0 :: map fst d)) as [Hin'|Hnin']; try done.
      * exfalso. apply Hnin'. by right.
      * exfalso. apply elem_of_cons in Hin' as [?|?]; [congruence|done].
Qed.

Lemma dict_set_fresh k v d : k ∉ map fst d -> dict_set k v d = d ++ [(k, v)].
Proof.
  induction d as [|[k0 v0] d IH]; [done|].
  cbn [dict_set map fst app].
  intros [Hne Hk]%not_elem_of_cons. rewrite decide_False by congruence.
  by rewrite IH.
Qed.

Lemma dict_set_NoDup k v d : NoDup (map fst d) -> NoDup (map fst (dict_set k v d)).
Proof.
  intros H. rewrite dict_set_keys. case_decide as Hk; [done|].
  apply NoDup_app. split; [done|]. split; [|apply NoDup_singleton].
  intros x Hx Hx'%list_elem_of_singleton. by subst.
Qed.

Lemma dict_pop_elem_of k d k' w : (k', w) ∈ dict_pop k d -> (k', w) ∈ d.
Proof.
  induction d as [|[k0 v0] d IH]; [done|]. cbn [dict_pop].
  destruct (decide (k0 = k)) as [_|_]; [by right|].
  intros [Hx|Hx]%elem_of_cons; [rewrite Hx; left|right; by apply IH].
Qed.

Lemma dict_pop_keys_sub k d x : x ∈ map fst (dict_pop k d) -> x ∈ map fst d.
Proof.
  rewrite !map_fmap. intros ([k' w] & -> & H)%list_elem_of_fmap.
  apply dict_pop_elem_of in H. by apply (list_elem_of_fmap_2 fst) in H.
Qed.

Lemma dict_pop_NoDup k d : NoDup (map fst d) -> NoDup (map fst (dict_pop k d)).
Proof.
  induction d as [|[k0 v0] d IH]; [done|]. cbn [dict_pop map fst].
  intros [Hnot Hnd]%NoDup_cons. case_decide; [done|]. cbn [map fst].
  apply NoDup_cons. split; [|by apply IH].
  intros H'. apply Hnot. by eapply dict_pop_keys_sub.
Qed.

Lemma dict_get_pop_ne k k' d : k <> k' -> dict_get k' (dict_pop k d) = dict_get k' d.
Proof.
  intros Hne. induction d as [|[k0 v0] d IH]; [done|]. cbn [dict_pop dict_get].
  destruct (decide (k0 = k)) as [Hk|Hk].
  - rewrite decide_False by congruence. done.
  - cbn [dict_get]. by rewrite IH.
Qed.

Lemma dict_get_pop_eq k d : NoDup (map fst d) -> dict_get k (dict_pop k d) = None.
Proof.
  induction d as [|[k0 v0] d IH]; [done|]. cbn [dict_pop map fst].
  intros [Hnot Hnd]%NoDup_cons. case_decide as Hk.
  - apply dict_get_None. by rewrite <- Hk.
  - cbn [dict_get]. rewrite decide_False by done. by apply IH.
Qed.

(** [{f(w): w for w in ws}], built on top of [d]. *)
Definition dict_of (f : wref -> Z) (ws : list wref) (d : list (Z * wref)) : list (Z * wref) :=
  fold_left (fun d w => dict_set (f w) w d) ws d.

Lemma dict_of_elem_of f ws d k w :
  (k, w) ∈ dict_of f ws d -> (k, w) ∈ d \/ (k = f w /\ w ∈ ws).
Proof.
  unfold dict_of. revert d. induction ws as [|w0 ws IH]; intros d; simpl; [by left|].
  intros H. destruct (IH _ H) as [H'|[-> Hin]].
  - destruct (dict_set_elem_of _ _ _ _ _ H') as [?|[-> ->]]; [by left|].
    right. split; [done|left].
  - right. split; [done|by right].
Qed.

Lemma dict_of_NoDup f ws d : NoDup (map fst d) -> NoDup (map fst (dict_of f ws d)).
Proof.
  unfold dict_of. revert d. induction ws as [|w0 ws IH]; intros d Hd; simpl; [done|].
  by apply IH, dict_set_NoDup.
Qed.

Lemma dict_of_get_None f ws d k :
  dict_get k (dict_of f ws d) = None <-> dict_get k d = None /\ k ∉ map f ws.
Proof.
  unfold dict_of. revert d. induction ws as [|w0 ws IH]; intros d; cbn [fold_left map].
  - split; [intros H; split; [done|apply not_elem_of_nil]|by intros [? _]].
  - rewrite IH, dict_get_set, not_elem_of_cons.
    destruct (decide (f w0 = k)) as [Hk|Hk].
    + split; [by intros [? _]|]. intros (_ & Hne & _). by destruct Hne.
    + split; [intros [? ?]; repeat split; [done|congruence|done]|].
      intros (? & _ & ?). by split.
Qed.

Lemma dict_of_distinct f ws d :
  NoDup (map fst d ++ map f ws) ->
  dict_of f ws d = d ++ map (fun w => (f w, w)) ws.
Proof.
  unfold dict_of. revert d. induction ws as [|w0 ws IH]; intros d Hnd; cbn [fold_left map].
  - by rewrite app_nil_r.
  - assert (f w0 ∉ map fst d) as Hfresh.
    { apply NoDup_app in Hnd as (_ & Hdisj & _). intros Hin.
      apply (Hdisj _ Hin). left. }
    rewrite dict_set_fresh by done. rewrite IH.
    + by rewrite <- app_assoc.
    + rewrite map_app. cbn [map fst]. rewrite <- app_assoc. exact Hnd.
Qed.

(** ** One reconciliation pass *)

(** The widgets constructed so far, with the id each was constructed for. *)
Definition created_events (cs : list (wref * Z)) : list Effect :=
  map (fun c => EvCreate c.1 c.2) cs.

(** What holds of the loop of [_load_items] after the items with ids [P]
    have been walked. *)
Definition loop_inv (s : NoteWindow) (P : list Z) (a : LoadLoop) : Prop :=
  let d0 := dict_of (widget_item_id s) (todo_widgets s) [] in
  item_heap (win a) = item_heap s
  /\ NoDup (map fst (existing_widgets a))
  /\ (forall k w, (k, w) ∈ existing_widgets a -> (k, w) ∈ d0)
  /\ (forall k, k ∈ P -> dict_get k (existing_widgets a) = None)
  /\ (forall k, k ∉ P -> dict_get k (existing_widgets a) = dict_get k d0)
  /\ exists cs, trace (win a) = trace s ++ created_events cs
       /\ Forall (fun c => c.2 ∈ P /\ (dict_get c.2 d0 = None \/ ~ NoDup P)) cs.

Lemma loop_inv_start s :
  loop_inv s []
    (mkLoadLoop (dict_of (widget_item_id s) (todo_widgets s) []) [] [] s).
Proof.
  unfold loop_inv. cbv zeta. simpl.
  split; [done|]. split; [apply dict_of_NoDup; constructor|].
  split; [done|]. split; [intros k Hk; by apply elem_of_nil in Hk|].
  split; [done|]. exists []. split; [by rewrite app_nil_r|constructor].
Qed.

Lemma loop_inv_step s P a it :
  loop_inv s P a ->
  loop_inv s (P ++ [item_id (item_at s it)]) (load_step a it).
Proof.
  intros (Hheap & Hnd & Hsub & Hdone & Hrest & cs & Htr & Hcs).
  assert (item_id (item_at (win a) it) = item_id (item_at s it)) as Hid
    by (unfold item_at; by rewrite Hheap).
  set (i := item_id (item_at s it)) in *.
  assert (Forall (fun c => c.2 ∈ P ++ [i]
            /\ (dict_get c.2 (dict_of (widget_item_id s) (todo_widgets s) []) = None
                \/ ~ NoDup (P ++ [i]))) cs) as Hcs'.
  { eapply Forall_impl; [exact Hcs|]. intros c [Hc1 Hc2]. split.
    - apply elem_of_app. by left.
    - destruct Hc2 as [?|Hdup]; [by left|right].
      intros Hn. apply Hdup. by apply NoDup_app in Hn as (? & _). }
  unfold load_step. rewrite Hid.
  destruct (dict_get i (existing_widgets a)) as [widget|] eqn:Hget.
  - unfold loop_inv. cbv zeta. cbn [win existing_widgets].
    split; [exact Hheap|]. split; [by apply dict_pop_NoDup|].
    split; [intros k w Hk; apply Hsub; by eapply dict_pop_elem_of|].
    split.
    { intros k [Hk| ->%list_elem_of_singleton]%elem_of_app.
      - destruct (decide (i = k)) as [<-|Hne]; [by apply dict_get_pop_eq|].
        rewrite dict_get_pop_ne by done. by apply Hdone.
      - by apply dict_get_pop_eq. }
    split.
    { intros k Hk. apply not_elem_of_app in Hk as [Hk1 Hk2].
      rewrite dict_get_pop_ne; [by apply Hrest|].
      intros ->. apply Hk2. left. }
    exists cs. split; [exact Htr|exact Hcs'].
  - unfold loop_inv. cbv zeta. cbn [win existing_widgets].
    split; [exact Hheap|]. split; [exact Hnd|]. split; [exact Hsub|].
    split.
    { intros k [Hk| ->%list_elem_of_singleton]%elem_of_app;
        [by apply Hdone|exact Hget]. }
    split.
    { intros k Hk. apply not_elem_of_app in Hk as [Hk1 _]. by apply Hrest. }
    exists (cs ++ [(length (widget_heap (win a)), i)]). split.
    { unfold _create_todo_widget, created_events. cbn [snd trace emit].
      change (trace (set_widget_heap ?h (win a))) with (trace (win a)).
      rewrite Hid, Htr, map_app, <- app_assoc. done. }
    apply Forall_app. split; [exact Hcs'|].
    constructor; [|constructor]. simpl. split.
    { apply elem_of_app. right. left. }
    destruct (decide (i ∈ P)) as [Hin|Hnin].
    + right. intros Hn. apply NoDup_app in Hn as (_ & Hdisj & _).
      apply (Hdisj i Hin). left.
    + left. rewrite <- Hrest by done. exact Hget.
Qed.

Lemma loop_inv_fold s L :
  forall P a, loop_inv s P a ->
    loop_inv s (P ++ map (fun l => item_id (item_at s l)) L) (fold_left load_step L a).
Proof.
  induction L as [|it L IH]; intros P a Ha; simpl.
  - by rewrite app_nil_r.
  - specialize (IH _ _ (loop_inv_step s P a it Ha)).
    by rewrite <- app_assoc in IH.
Qed.

Lemma loop_inv_final s : loop_inv s (ids s) (load_loop s).
Proof.
  pose proof (loop_inv_fold s (data_items s) [] _ (loop_inv_start s)) as H.
  exact H.
Qed.

(** Calls to the geometry manager. *)
Definition is_pack_event (e : Effect) : Prop :=
  match e with
  | EvPack _ _ | EvPackForget _ => True
  | _ => False
  end.

Lemma pack_new_widget_trace c s w :
  exists pk, trace (pack_new_widget c s w) = trace s ++ pk /\ Forall is_pack_event pk.
Proof.
  unfold pack_new_widget.
  repeat (case_match || case_decide);
    try (exists []; split; [by rewrite app_nil_r|constructor]);
    (eexists [_]; split; [reflexivity|by repeat constructor]).
Qed.

Lemma pack_new_widgets_trace c l s :
  exists pk, trace (fold_left (pack_new_widget c) l s) = trace s ++ pk
             /\ Forall is_pack_event pk.
Proof.
  revert s. induction l as [|w l IH]; intros s; simpl.
  - exists []. split; [by rewrite app_nil_r|constructor].
  - destruct (IH (pack_new_widget c s w)) as (pk2 & -> & H2).
    destruct (pack_new_widget_trace c s w) as (pk1 & -> & H1).
    exists (pk1 ++ pk2). split; [by rewrite app_assoc|by apply Forall_app].
Qed.

Lemma Forall_pack_map {A : Type} (f : A -> Effect) (l : list A) :
  (forall x, is_pack_event (f x)) -> Forall is_pack_event (map f l).
Proof. intros H. induction l; simpl; by constructor. Qed.

(** The effects of one pass, in order: the constructions, the
    destructions, then only packing. *)
Lemma load_items_trace f s :
  exists pk,
    trace (_load_items f s)
    = trace (win (load_loop s)) ++ map EvDestroy (destroyed (load_report s)) ++ pk
    /\ Forall is_pack_event pk.
Proof.
  unfold _load_items. cbv zeta.
  set (s6 := set_todo_widgets _ _).
  assert (trace s6 = trace (win (load_loop s))
                     ++ map EvDestroy (destroyed (load_report s))) as H6 by done.
  clearbody s6.
  assert (Forall is_pack_event
            [EvPackForget SlavePlaceholder; EvPack SlavePlaceholder None]) as Hlast
    by (by repeat constructor).
  destruct (f || _).
  - eexists. split.
    + rewrite !trace_emit, H6, <- !app_assoc. reflexivity.
    + rewrite !Forall_app. repeat split; try exact Hlast; by apply Forall_pack_map.
  - destruct (decide (created (load_report s) ≠ [])) as [Hc|Hc].
    + destruct (decide (length (created (load_report s)) = length (todo_widgets s6)))
        as [Hl|Hl].
      * eexists. split.
        -- rewrite !trace_emit, H6, <- !app_assoc. reflexivity.
        -- rewrite !Forall_app. repeat split; try exact Hlast; by apply Forall_pack_map.
      * destruct (pack_new_widgets_trace (created (load_report s))
                    (created (load_report s)) s6) as (pk & Hpk & Hall).
        eexists. split.
        -- rewrite !trace_emit, Hpk, H6, <- !app_assoc. reflexivity.
        -- rewrite !Forall_app. split; [exact Hall|exact Hlast].
    + eexists. split.
      * rewrite !trace_emit, H6, <- !app_assoc. reflexivity.
      * exact Hlast.
Qed.

(** The effects a pass adds to the trace. *)
Definition load_events (f : bool) (s : NoteWindow) : list Effect :=
  drop (length (trace s)) (trace (_load_items f s)).

Lemma load_events_spec f s :
  trace (_load_items f s) = trace s ++ load_events f s
  /\ exists cs pk,
       load_events f s
       = created_events cs ++ map EvDestroy (destroyed (load_report s)) ++ pk
       /\ Forall is_pack_event pk
       /\ Forall (fun c => c.2 ∈ ids s
                    /\ (dict_get c.2 (dict_of (widget_item_id s) (todo_widgets s) []) = None
                        \/ ~ NoDup (ids s))) cs.
Proof.
  destruct (load_items_trace f s) as (pk & Htr & Hpk).
  destruct (loop_inv_final s) as (_ & _ & _ & _ & _ & cs & Hcs & Hall).
  assert (load_events f s
          = created_events cs ++ map EvDestroy (destroyed (load_report s)) ++ pk) as Hev.
  { unfold load_events. rewrite Htr, Hcs, <- app_assoc. by rewrite drop_app_length. }
  split.
  - by rewrite Hev, Htr, Hcs, <- app_assoc.
  - by exists cs, pk.
Qed.

Lemma destroyed_spec s w :
  w ∈ destroyed (load_report s) ->
  w ∈ todo_widgets s /\ widget_item_id s w ∉ ids s.
Proof.
  unfold load_report. cbn [destroyed]. rewrite map_fmap.
  intros ([k w'] & -> & Hin)%list_elem_of_fmap. simpl.
  destruct (loop_inv_final s) as (_ & _ & Hsub & Hdone & _).
  destruct (dict_of_elem_of _ _ _ _ _ (Hsub _ _ Hin)) as [Hnil|[-> Hw]];
    [by apply elem_of_nil in Hnil|].
  split; [done|]. intros Hids.
  destruct (dict_get_elem_of _ _ _ Hin) as [x Hx].
  rewrite (Hdone _ Hids) in Hx. done.
Qed.

Lemma in_created_events w i cs :
  EvCreate w i ∈ created_events cs -> (w, i) ∈ cs.
Proof.
  unfold created_events. rewrite map_fmap.
  intros ([w' i'] & [= -> ->] & H)%list_elem_of_fmap. done.
Qed.

Lemma pack_event_not_lifecycle pk e :
  Forall is_pack_event pk -> e ∈ pk ->
  (forall w, e <> EvDestroy w) /\ (forall w i, e <> EvCreate w i).
Proof.
  intros Hall He. rewrite Forall_forall in Hall. specialize (Hall e He).
  split; intros; intros ->; done.
Qed.

Lemma load_events_destroy f s w :
  EvDestroy w ∈ load_events f s ->
  w ∈ todo_widgets s /\ widget_item_id s w ∉ ids s.
Proof.
  destruct (load_events_spec f s) as (_ & cs & pk & -> & Hpk & _).
  intros [H|[H|H]%elem_of_app]%elem_of_app.
  - unfold created_events in H. rewrite map_fmap in H.
    by apply list_elem_of_fmap in H as (? & ? & _).
  - rewrite map_fmap in H. apply list_elem_of_fmap in H as (w' & [= ->] & H).
    by apply destroyed_spec.
  - destruct (pack_event_not_lifecycle pk _ Hpk H) as [Hd _]. by destruct (Hd w).
Qed.

Lemma load_events_create f s w i :
  EvCreate w i ∈ load_events f s ->
  i ∈ ids s
  /\ (NoDup (ids s) -> i ∉ map (widget_item_id s) (todo_widgets s)).
Proof.
  destruct (load_events_spec f s) as (_ & cs & pk & -> & Hpk & Hcs).
  intros [H|[H|H]%elem_of_app]%elem_of_app.
  - apply in_created_events in H. rewrite Forall_forall in Hcs.
    destruct (Hcs _ H) as [Hin Hnew]. simpl in Hin, Hnew.
    split; [done|]. intros Hnd. destruct Hnew as [Hnone|?]; [|done].
    apply dict_of_get_None in Hnone as [_ ?]. done.
  - rewrite map_fmap in H. by apply list_elem_of_fmap in H as (? & ? & _).
  - destruct (pack_event_not_lifecycle pk _ Hpk H) as [_ Hc]. by destruct (Hc w i).
Qed.

(** The pass on a view that already shows the items, in order. *)
Lemma load_fold_in_sync s L :
  forall ws a,
    item_heap (win a) = item_heap s ->
    existing_widgets a = map (fun w => (widget_item_id s w, w)) ws ->
    map (fun l => item_id (item_at s l)) L = map (widget_item_id s) ws ->
    let a' := fold_left load_step L a in
    existing_widgets a' = []
    /\ new_widgets_list a' = new_widgets_list a ++ ws
    /\ newly_created_widgets a' = newly_created_widgets a
    /\ trace (win a') = trace (win a).
Proof.
  induction L as [|it L IH]; intros ws a Hheap Hex Hids; simpl.
  - destruct ws; [|done]. simpl in Hex. by rewrite app_nil_r.
  - destruct ws as [|w ws]; [done|]. simpl in Hids. injection Hids as Hi Hids.
    assert (item_id (item_at (win a) it) = widget_item_id s w) as Hid
      by (unfold item_at in *; by rewrite Hheap).
    set (a1 := mkLoadLoop (map (fun w => (widget_item_id s w, w)) ws)
                 (new_widgets_list a ++ [w]) (newly_created_widgets a)
                 (update_item_data w it (Some (font_size (data_settings (win a))))
                    (win a))).
    assert (load_step a it = a1) as ->.
    { unfold load_step, a1. rewrite Hid, Hex. cbn [map dict_get dict_pop].
      rewrite !decide_True by done. done. }
    destruct (IH ws a1 Hheap eq_refl Hids) as (H1 & H2 & H3 & H4).
    split; [exact H1|]. split; [|split; [exact H3|exact H4]].
    rewrite H2. unfold a1. cbn [new_widgets_list]. by rewrite <- app_assoc.
Qed.

Lemma filter_not_in_nil (l : list wref) : filter (fun w => w ∉ []) l = l.
Proof.
  induction l as [|x l IH]; [done|].
  rewrite filter_cons, decide_True by apply not_elem_of_nil. by rewrite IH.
Qed.

Lemma load_items_in_sync s :
  NoDup (ids s) ->
  map (widget_item_id s) (todo_widgets s) = ids s ->
  load_report s = mkLoadReport [] [] false
  /\ todo_widgets (_load_items false s) = todo_widgets s
  /\ load_events false s = [EvPackForget SlavePlaceholder; EvPack SlavePlaceholder None].
Proof.
  intros Hnd Hsync.
  assert (existing_widgets (load_loop s) = []
          /\ new_widgets_list (load_loop s) = todo_widgets s
          /\ newly_created_widgets (load_loop s) = []
          /\ trace (win (load_loop s)) = trace s) as (He & Hn & Hc & Ht).
  { unfold load_loop.
    apply (load_fold_in_sync s (data_items s) (todo_widgets s)); [done| |by symmetry].
    cbn [existing_widgets].
    change (fold_left (fun d w => dict_set (widget_item_id s w) w d) (todo_widgets s) [])
      with (dict_of (widget_item_id s) (todo_widgets s) []).
    rewrite dict_of_distinct; [done|]. simpl. by rewrite Hsync. }
  assert (load_report s = mkLoadReport [] [] false) as Hrep.
  { unfold load_report. cbv zeta. rewrite He, Hn, Hc. simpl.
    rewrite filter_not_in_nil. f_equal. apply bool_decide_eq_false. by intros H. }
  split; [exact Hrep|].
  split; [by rewrite load_items_todo_widgets|].
  unfold load_events, _load_items. cbv zeta. rewrite Hrep. cbn [created destroyed order_changed].
  rewrite decide_False by (by intros H). cbn [orb].
  rewrite trace_emit.
  change (trace (set_todo_widgets ?l (emit (map EvDestroy []) ?t))) with (trace t ++ []).
  rewrite Ht, app_nil_r. by rewrite drop_app_length.
Qed.

Lemma write_completed_item_id l c s l' :
  item_id (item_at (write_completed l c s) l') = item_id (item_at s l').
Proof.
  unfold write_completed, item_at. simpl.
  rewrite list_lookup_total_insert. case_decide as H; [|done].
  destruct H as [-> _]. done.
Qed.

(** [_on_toggle] keeps every id, the item list, the widgets and the view
    order; its only effect on the outside is one save. *)
Lemma on_toggle_frame w s :
  let t := _on_toggle w s in
  (forall l, item_id (item_at t l) = item_id (item_at s l))
  /\ data_items t = data_items s
  /\ widget_heap t = widget_heap s
  /\ todo_widgets t = todo_widgets s
  /\ trace t = trace s ++ [EvSave (snapshot t)].
Proof.
  intros t. unfold t, _on_toggle, _on_item_changed. cbv zeta.
  set (s1 := _on_text_change w false s).
  assert ((forall l, item_id (item_at s1 l) = item_id (item_at s l))
          /\ data_items s1 = data_items s /\ widget_heap s1 = widget_heap s
          /\ todo_widgets s1 = todo_widgets s /\ trace s1 = trace s)
    as (H1 & H2 & H3 & H4 & H5).
  { unfold s1, _on_text_change. case_decide; [|done].
    split; [intros l; apply write_text_item_id|done]. }
  set (s2 := write_completed _ _ s1).
  assert ((forall l, item_id (item_at s2 l) = item_id (item_at s l))
          /\ data_items s2 = data_items s /\ widget_heap s2 = widget_heap s
          /\ todo_widgets s2 = todo_widgets s /\ trace s2 = trace s)
    as (G1 & G2 & G3 & G4 & G5).
  { split; [|done]. intros l. unfold s2. by rewrite write_completed_item_id. }
  destruct (data_core_eq _ _ (save_data_core true s2)) as (E1 & E2 & _).
  split; [intros l; unfold item_at; rewrite E1; apply G1|].
  split; [by rewrite E2|].
  split; [unfold _save_data; repeat case_decide; exact G3|].
  split; [unfold _save_data; repeat case_decide; exact G4|].
  rewrite save_data_trace, save_data_snapshot. by rewrite G5.
Qed.

Lemma on_toggle_ids w s :
  ids (_on_toggle w s) = ids s
  /\ forall w', widget_item_id (_on_toggle w s) w' = widget_item_id s w'.
Proof.
  destruct (on_toggle_frame w s) as (H1 & H2 & H3 & _).
  split.
  - unfold ids. rewrite H2. apply map_ext. intros l. apply H1.
  - intros w'. unfold widget_item_id, widget_at. rewrite H3. apply H1.
Qed.

(** C5. Reconciliation reuse.  Let the ids of [data['items']] be pairwise
    distinct, as [_load_items] requires of its callers.  In one pass a
    widget is destroyed only if it was shown and its id is absent from the
    new item list, and a widget is created only for an id of the new list
    that no shown widget had; so no id sees its widget destroyed and
    another created.  When the view shows the items in order, toggling the
    completion of one of them runs no pass at all, keeps the same widget
    objects in the same order and only saves; a pass run afterwards
    creates nothing, destroys nothing, finds the order unchanged and
    repacks only the placeholder. *)
Theorem reconciliation_reuse (s : NoteWindow) (force : bool) (w0 : wref) :
  NoDup (ids s) ->
  trace (_load_items force s) = trace s ++ load_events force s
  /\ (forall w, EvDestroy w ∈ load_events force s ->
        w ∈ todo_widgets s /\ widget_item_id s w ∉ ids s)
  /\ (forall w i, EvCreate w i ∈ load_events force s ->
        i ∈ ids s /\ i ∉ map (widget_item_id s) (todo_widgets s))
  /\ (forall w w' i, EvDestroy w ∈ load_events force s ->
        EvCreate w' i ∈ load_events force s -> widget_item_id s w <> i)
  /\ (map (widget_item_id s) (todo_widgets s) = ids s ->
      let t := _on_toggle w0 s in
      todo_widgets t = todo_widgets s
      /\ trace t = trace s ++ [EvSave (snapshot t)]
      /\ load_report t = mkLoadReport [] [] false
      /\ todo_widgets (_load_items false t) = todo_widgets s
      /\ load_events false t
         = [EvPackForget SlavePlaceholder; EvPack SlavePlaceholder None]).
Proof.
  intros Hnd.
  split; [apply load_events_spec|].
  split; [apply load_events_destroy|].
  split.
  { intros w i H. destruct (load_events_create force s w i H) as [H1 H2].
    split; [done|by apply H2]. }
  split.
  { intros w w' i Hd Hc Heq.
    destruct (load_events_destroy force s w Hd) as [_ Hout].
    destruct (load_events_create force s w' i Hc) as [Hin _].
    apply Hout. by rewrite Heq. }
  intros Hsync t.
  destruct (on_toggle_frame w0 s) as (_ & _ & _ & Htw & Htr).
  destruct (on_toggle_ids w0 s) as [Hids Hwid].
  fold t in Htw, Htr, Hids, Hwid.
  destruct (load_items_in_sync t) as (H1 & H2 & H3).
  { by rewrite Hids. }
  { rewrite Hids, Htw, <- Hsync. apply map_ext. intros w. apply Hwid. }
  split; [exact Htw|]. split; [exact Htr|]. split; [exact H1|].
  split; [by rewrite H2|exact H3].
Qed.

Lemma reconciliation_reuse_witness :
  let s := NoteWindow_init screen_hd doc_abc in
  trace (_load_items false s) = trace s ++ load_events false s
  /\ (forall w, EvDestroy w ∈ load_events false s ->
        w ∈ todo_widgets s /\ widget_item_id s w ∉ ids s)
  /\ (forall w i, EvCreate w i ∈ load_events false s ->
        i ∈ ids s /\ i ∉ map (widget_item_id s) (todo_widgets s))
  /\ (forall w w' i, EvDestroy w ∈ load_events false s ->
        EvCreate w' i ∈ load_events false s -> widget_item_id s w <> i)
  /\ (map (widget_item_id s) (todo_widgets s) = ids s ->
      let t := _on_toggle 1%nat s in
      todo_widgets t = todo_widgets s
      /\ trace t = trace s ++ [EvSave (snapshot t)]
      /\ load_report t = mkLoadReport [] [] false
      /\ todo_widgets (_load_items false t) = todo_widgets s
      /\ load_events false t
         = [EvPackForget SlavePlaceholder; EvPack SlavePlaceholder None]).
Proof.
  apply (reconciliation_reuse (NoteWindow_init screen_hd doc_abc) false 1%nat).
  apply (bool_decide_unpack _). vm_compute. exact I.
Defined.

(** Deleting the middle item destroys its widget and no other; adding one
    creates a single widget; a toggle in between changes no widget. *)
Example reconcile_delete_and_add :
  let s := NoteWindow_init screen_hd doc_abc in
  load_report (delete_item_data 2 s) = mkLoadReport [] [1%nat] false
  /\ load_report (add_item_data (Some 1) "t" s) = mkLoadReport [3%nat] [] false
  /\ todo_widgets (_on_toggle 1%nat s) = [0; 1; 2]%nat
  /\ item_completed <$> items (snapshot (_on_toggle 1%nat s)) = [false; true; false]
  /\ load_report (set_data_items [2; 0; 1]%nat s) = mkLoadReport [] [] true.
Proof. vm_compute. repeat split; reflexivity. Qed.

(** * Further properties of the history *)

Lemma redo_synced s :
  history_synced s ->
  history_synced (_redo s)
  /\ _history (_redo s) = _history s
  /\ _history_index (_redo s)
     = Z.min (Z.of_nat (length (_history s)) - 1) (_history_index s + 1).
Proof.
  intros [Hi Hs].
  destruct (decide (Z.of_nat (length (_history s)) - 1 <= _history_index s)) as [H0|Hpos].
  - rewrite redo_noop by done. repeat split; [lia|lia|done|lia].
  - destruct (py_index_in_range (_history s) (_history_index s + 1)) as [d Hd]; [lia|].
    destruct (redo_step s d) as [Hsu Hhu]; [lia|done|].
    apply (f_equal fst) in Hhu as Hh1. apply (f_equal snd) in Hhu as Hh2.
    simpl in Hh1, Hh2. unfold history_synced.
    rewrite Hh1, Hh2, Hsu. repeat split; [lia|lia|done|lia].
Qed.

Lemma iter_redo_synced k s :
  history_synced s ->
  history_synced (Nat.iter k _redo s)
  /\ _history (Nat.iter k _redo s) = _history s
  /\ _history_index (Nat.iter k _redo s)
     = Z.min (Z.of_nat (length (_history s)) - 1) (_history_index s + Z.of_nat k).
Proof.
  intros Hs. induction k as [|k (IH1 & IH2 & IH3)].
  - simpl. split; [done|]. split; [done|]. destruct Hs as [Hi _]. lia.
  - rewrite Nat.iter_succ.
    destruct (redo_synced _ IH1) as (H1 & H2 & H3).
    split; [done|]. split; [by rewrite H2|]. rewrite H3, IH2, IH3. lia.
Qed.

Lemma history_synced_snapshot s t :
  history_synced s -> history_synced t ->
  _history t = _history s -> _history_index t = _history_index s ->
  snapshot t = snapshot s.
Proof.
  intros [_ Hs] [_ Ht] Hh Hi. rewrite Hh, Hi, Hs in Ht. congruence.
Qed.

(** X1. Undo and redo walk the same list of records in opposite
    directions: whenever the record under the index is the live document,
    [k] undos followed by [k] redos bring back the document and the index
    as long as [k] does not exceed the index, and [k] redos followed by [k]
    undos do so as long as [k] records lie ahead.  The history list is the
    same throughout. *)
Theorem undo_redo_walk (s : NoteWindow) (k : nat) :
  history_synced s ->
  (Z.of_nat k <= _history_index s ->
   snapshot (Nat.iter k _redo (Nat.iter k _undo s)) = snapshot s
   /\ _history_index (Nat.iter k _redo (Nat.iter k _undo s)) = _history_index s
   /\ _history_index (Nat.iter k _undo s) = _history_index s - Z.of_nat k)
  /\ (_history_index s + Z.of_nat k <= Z.of_nat (length (_history s)) - 1 ->
      snapshot (Nat.iter k _undo (Nat.iter k _redo s)) = snapshot s
      /\ _history_index (Nat.iter k _undo (Nat.iter k _redo s)) = _history_index s
      /\ _history_index (Nat.iter k _redo s) = _history_index s + Z.of_nat k)
  /\ _history (Nat.iter k _redo (Nat.iter k _undo s)) = _history s
  /\ _history (Nat.iter k _undo (Nat.iter k _redo s)) = _history s.
Proof.
  intros Hs. pose proof Hs as [Hrange _].
  destruct (iter_undo_synced k s Hs) as (U1 & U2 & U3).
  destruct (iter_redo_synced k _ U1) as (UR1 & UR2 & UR3).
  destruct (iter_redo_synced k s Hs) as (R1 & R2 & R3).
  destruct (iter_undo_synced k _ R1) as (RU1 & RU2 & RU3).
  split; [|split; [|split]].
  - intros Hk.
    assert (_history_index (Nat.iter k _redo (Nat.iter k _undo s)) = _history_index s)
      as Hidx by (rewrite UR3, U2, U3; lia).
    split; [|split; [done|rewrite U3; lia]].
    apply history_synced_snapshot; [done|done| |done]. by rewrite UR2, U2.
  - intros Hk.
    assert (_history_index (Nat.iter k _undo (Nat.iter k _redo s)) = _history_index s)
      as Hidx by (rewrite RU3, R3; lia).
    split; [|split; [done|rewrite R3; lia]].
    apply history_synced_snapshot; [done|done| |done]. by rewrite RU2, R2.
  - by rewrite UR2, U2.
  - by rewrite RU2, R2.
Qed.

Definition session_three_adds : NoteWindow :=
  mutate_all [AddItem None "t1"; AddItem None "t2"; AddItem None "t3"]
    (NoteWindow_init screen_hd DEFAULT_CONFIG).

Lemma undo_redo_walk_witness :
  let s := _undo session_three_adds in
  (Z.of_nat 1 <= _history_index s ->
   snapshot (Nat.iter 1 _redo (Nat.iter 1 _undo s)) = snapshot s
   /\ _history_index (Nat.iter 1 _redo (Nat.iter 1 _undo s)) = _history_index s
   /\ _history_index (Nat.iter 1 _undo s) = _history_index s - Z.of_nat 1)
  /\ (_history_index s + Z.of_nat 1 <= Z.of_nat (length (_history s)) - 1 ->
      snapshot (Nat.iter 1 _undo (Nat.iter 1 _redo s)) = snapshot s
      /\ _history_index (Nat.iter 1 _undo (Nat.iter 1 _redo s)) = _history_index s
      /\ _history_index (Nat.iter 1 _redo s) = _history_index s + Z.of_nat 1)
  /\ _history (Nat.iter 1 _redo (Nat.iter 1 _undo s)) = _history s
  /\ _history (Nat.iter 1 _undo (Nat.iter 1 _redo s)) = _history s.
Proof.
  apply (undo_redo_walk (_undo session_three_adds) 1).
  split; [vm_compute; split; [discriminate|reflexivity]|vm_compute; reflexivity].
Defined.




(** Nothing recorded yet, or the record under the index is the live
    document. *)
Definition history_consistent (s : NoteWindow) : Prop :=
  (_history s = [] /\ _history_index s = -1) \/ history_synced s.

Lemma history_consistent_frame s s' :
  hist_core s' = hist_core s -> data_core s' = data_core s ->
  history_consistent s -> history_consistent s'.
Proof.
  intros Hh Hd Hs. apply hist_core_eq in Hh as [Hh1 Hh2].
  unfold history_consistent, history_synced.
  rewrite (snapshot_core _ _ Hd), Hh1, Hh2. exact Hs.
Qed.

Lemma history_consistent_save p : history_consistent (_save_data true p).
Proof.
  right. apply history_current_synced; [apply history_current_save|].
  intros Hnil. pose proof (save_data_true_last p) as H. by rewrite Hnil in H.
Qed.

Lemma history_consistent_act a s :
  history_consistent s -> history_consistent (act a s).
Proof.
  intros Hs. destruct a as [m| | | |w t]; simpl.
  - destruct (mutate_cases m s) as [(p & -> & _)|[Hh Hd]].
    + apply history_consistent_save.
    + by apply (history_consistent_frame s).
  - destruct Hs as [[Hn Hi]|Hsync].
    + rewrite undo_noop by lia. by left.
    + right. by apply undo_synced.
  - destruct Hs as [[Hn Hi]|Hsync].
    + rewrite redo_noop by (rewrite Hn, Hi; simpl; lia). by left.
    + right. by apply redo_synced.
  - apply (history_consistent_frame s); [done|apply save_data_core|done].
  - by apply (history_consistent_frame s).
Qed.

(** X3. In every state a session can reach (mutations, drags, typing,
    undo, redo, autosave in any order) the history index is -1 on an empty
    history, where the live document is still the one [__init__] left, and
    otherwise a valid index whose record equals the live document. *)
Theorem history_index_tracks_document (scr : Screen) (d : Document)
    (acts : list Action) :
  let s := run acts (NoteWindow_init scr d) in
  (_history s = [] /\ _history_index s = -1
   /\ snapshot s = snapshot (NoteWindow_init scr d))
  \/ (0 <= _history_index s < Z.of_nat (length (_history s))
      /\ _history s !! Z.to_nat (_history_index s) = Some (snapshot s)).
Proof.
  intros s.
  assert (history_consistent s
          /\ (_history s = [] -> snapshot s = snapshot (NoteWindow_init scr d)))
    as [Hc Hd].
  { unfold s, run.
    apply (fold_left_invariant
             (fun t => history_consistent t
                       /\ (_history t = [] -> snapshot t = snapshot (NoteWindow_init scr d)))).
    - split; [left; apply init_history|]. done.
    - intros t a [Ht1 Ht2]. split; [by apply history_consistent_act|].
      intros Hnil. destruct a as [m| | | |w txt]; cbn [act] in *.
      + destruct (mutate_cases m t) as [(p & Hp & _)|[Hh Hdc]].
        * pose proof (save_data_true_last p) as Hl. rewrite <- Hp, Hnil in Hl. done.
        * apply hist_core_eq in Hh as [Hh _]. rewrite (snapshot_core _ _ Hdc).
          apply Ht2. by rewrite <- Hh.
      + rewrite undo_history in Hnil. destruct Ht1 as [[_ Hi]|[Hr _]].
        * rewrite undo_noop by lia. by apply Ht2.
        * rewrite Hnil in Hr. simpl in Hr. lia.
      + rewrite redo_history in Hnil. destruct Ht1 as [[Hn Hi]|[Hr _]].
        * rewrite redo_noop by (rewrite Hn, Hi; simpl; lia). by apply Ht2.
        * rewrite Hnil in Hr. simpl in Hr. lia.
      + unfold _auto_save in *. rewrite save_data_snapshot. apply Ht2.
        destruct (hist_core_eq _ _ (save_data_false_hist t)) as [Hh _].
        by rewrite <- Hh.
      + by apply Ht2. }
  destruct Hc as [[Hn Hi]|[Hr Hp]].
  - left. split; [done|]. split; [done|by apply Hd].
  - right. split; [done|]. by rewrite py_index_nonneg in Hp by lia.
Qed.

(** * Further properties of the handlers *)

(** ** No drag is in progress between gestures *)

















(** ** [_clear_completed] and [_toggle_mode] *)

Lemma filter_map_comm {A B : Type} (f : A -> B) (P : B -> Prop)
    `{forall y, Decision (P y)} (l : list A) :
  filter P (map f l) = map f (filter (fun x => P (f x)) l).
Proof.
  induction l as [|x l IH]; [done|].
  cbn [map]. rewrite !filter_cons. case_decide; cbn [map]; by rewrite IH.
Qed.

(** X5. [_clear_completed] keeps exactly the items that are not completed,
    in their order and with their content, leaves window and settings
    alone, and ends in one push and one save of the document it left. *)
Theorem clear_completed_keeps_open_items (s : NoteWindow) :
  let s' := _clear_completed s in
  items (snapshot s')
  = filter (fun it => item_completed it = false) (items (snapshot s))
  /\ window (snapshot s') = window (snapshot s)
  /\ settings (snapshot s') = settings (snapshot s)
  /\ Forall (fun it => item_completed it = false) (items (snapshot s'))
  /\ _history s' = pushed_history (_history s) (_history_index s) (snapshot s')
  /\ last (trace s') = Some (EvSave (snapshot s')).
Proof.
  intros s'.
  assert (snapshot s'
          = mkDocument
              (filter (fun it => item_completed it = false) (items (snapshot s)))
              (window (snapshot s)) (settings (snapshot s))) as Hsnap.
  { unfold s', _clear_completed. cbv zeta.
    rewrite save_data_snapshot, snapshot_load_items.
    unfold snapshot. cbn [items window settings data_items data_window data_settings
                          set_data_items].
    f_equal. rewrite filter_map_comm. apply map_ext. intros l. reflexivity. }
  split; [by rewrite Hsnap|]. split; [by rewrite Hsnap|]. split; [by rewrite Hsnap|].
  split.
  { rewrite Hsnap. cbn [items]. apply Forall_forall. intros it Hit.
    by apply list_elem_of_filter in Hit as [? _]. }
  split.
  { destruct (clear_completed_records s) as (p & Hp & Hhp).
    fold s' in Hp. apply hist_core_eq in Hhp as [H1 H2].
    rewrite Hp at 1. rewrite save_data_true_history, H1, H2.
    by rewrite Hp, save_data_snapshot. }
  unfold s', _clear_completed. cbv zeta.
  rewrite save_data_trace, save_data_snapshot. by rewrite last_snoc.
Qed.


(** ** What the view shows after a reconciliation pass *)

(** What the row [w] shows of the item dict at [l]: it is bound to that
    dict, displays its text and has the font size of the settings. *)
Definition shows (s : NoteWindow) (w : wref) (l : loc) : Prop :=
  item_data (widget_at s w) = l
  /\ text_entry (widget_at s w) = item_text (item_at s l)
  /\ w_font_size (widget_at s w) = font_size (data_settings s).

(** The loop of [_load_items] after the items at [L1]: the rows collected
    so far show them, and collected rows and rows still in the dict are
    distinct live objects. *)
Definition sync_inv (a : LoadLoop) (L1 : list loc) : Prop :=
  Forall2 (shows (win a)) (new_widgets_list a) L1
  /\ NoDup (new_widgets_list a ++ map snd (existing_widgets a))
  /\ Forall (fun w => (w < length (widget_heap (win a)))%nat)
       (new_widgets_list a ++ map snd (existing_widgets a)).

Lemma shows_frame s s' w l :
  item_heap s' = item_heap s -> data_settings s' = data_settings s ->
  widget_at s' w = widget_at s w -> shows s w l -> shows s' w l.
Proof.
  intros Hh Hg Hw (H1 & H2 & H3). unfold shows, item_at in *.
  rewrite Hw, Hh, Hg. done.
Qed.

Lemma dict_get_split k d w :
  dict_get k d = Some w ->
  exists d1 d2, d = d1 ++ (k, w) :: d2 /\ dict_pop k d = d1 ++ d2.
Proof.
  induction d as [|[k0 v0] d IH]; [done|]. cbn [dict_get dict_pop].
  destruct (decide (k0 = k)) as [->|Hne].
  - intros [= ->]. by exists [], d.
  - intros Hget. destruct (IH Hget) as (d1 & d2 & -> & ->).
    by exists ((k0, v0) :: d1), d2.
Qed.

Lemma dict_set_values k v d x :
  x ∈ map snd (dict_set k v d) -> x = v \/ x ∈ map snd d.
Proof.
  rewrite !map_fmap. intros ([k' w'] & -> & Hin)%list_elem_of_fmap.
  destruct (dict_set_elem_of _ _ _ _ _ Hin) as [H|[_ ->]]; [right|by left].
  by apply (list_elem_of_fmap_2 snd) in H.
Qed.

Lemma dict_set_values_NoDup k v d :
  NoDup (map snd d) -> v ∉ map snd d -> NoDup (map snd (dict_set k v d)).
Proof.
  induction d as [|[k0 v0] d IH]; cbn [dict_set map snd].
  - intros _ _. apply NoDup_singleton.
  - intros [Hv0 Hnd]%NoDup_cons [Hne Hv]%not_elem_of_cons.
    destruct (decide (k0 = k)) as [_|_]; cbn [map snd].
    + by apply NoDup_cons.
    + apply NoDup_cons. split; [|by apply IH].
      intros [->|Hin]%dict_set_values; done.
Qed.

Lemma dict_of_values f ws d x :
  x ∈ map snd (dict_of f ws d) -> x ∈ map snd d \/ x ∈ ws.
Proof.
  rewrite !map_fmap. intros ([k' w'] & -> & Hin)%list_elem_of_fmap.
  destruct (dict_of_elem_of _ _ _ _ _ Hin) as [H|[_ H]]; [left|by right].
  by apply (list_elem_of_fmap_2 snd) in H.
Qed.

Lemma dict_of_values_NoDup f ws d :
  NoDup (map snd d ++ ws) -> NoDup (map snd (dict_of f ws d)).
Proof.
  unfold dict_of. revert d. induction ws as [|w ws IH]; intros d Hnd; cbn [fold_left].
  - by rewrite app_nil_r in Hnd.
  - apply IH. apply NoDup_app in Hnd as (Hd & Hdisj & [Hw Hws]%NoDup_cons).
    apply NoDup_app. split; [|split; [|done]].
    + apply dict_set_values_NoDup; [done|]. intros Hin. apply (Hdisj _ Hin). left.
    + intros x [->|Hx]%dict_set_values Hin; [done|].
      apply (Hdisj _ Hx). by right.
Qed.

Lemma Forall2_impl_in {A B : Type} (P Q : A -> B -> Prop) (l : list A) (k : list B) :
  Forall2 P l k -> (forall x y, x ∈ l -> P x y -> Q x y) -> Forall2 Q l k.
Proof.
  induction 1 as [|x y l k Hxy _ IH]; intros HPQ; constructor.
  - apply HPQ; [left|done].
  - apply IH. intros x' y' Hin. apply HPQ. by right.
Qed.

Lemma sync_inv_start s :
  NoDup (todo_widgets s) ->
  Forall (fun w => (w < length (widget_heap s))%nat) (todo_widgets s) ->
  sync_inv (mkLoadLoop (dict_of (widget_item_id s) (todo_widgets s) []) [] [] s) [].
Proof.
  intros Hnd Hlive. unfold sync_inv. cbn [win new_widgets_list existing_widgets app].
  split; [constructor|]. split; [by apply dict_of_values_NoDup|].
  apply Forall_forall. intros x [Hx|Hx]%dict_of_values; [by apply elem_of_nil in Hx|].
  rewrite Forall_forall in Hlive. by apply Hlive.
Qed.

Lemma sync_inv_step a L1 it :
  sync_inv a L1 -> sync_inv (load_step a it) (L1 ++ [it]).
Proof.
  intros (Hsh & Hnd & Hlive). unfold load_step. cbv zeta.
  destruct (dict_get _ (existing_widgets a)) as [widget|] eqn:Hget.
  - destruct (dict_get_split _ _ _ Hget) as (d1 & d2 & Hd & Hpop).
    rewrite Hd in Hnd, Hlive. rewrite map_app in Hnd, Hlive. cbn [map snd] in Hnd, Hlive.
    assert (new_widgets_list a ++ map snd d1 ++ widget :: map snd d2
            ≡ₚ (new_widgets_list a ++ [widget]) ++ map snd d1 ++ map snd d2) as Hperm.
    { rewrite <- (app_assoc _ [widget]). cbn [app]. apply Permutation_app_head.
      symmetry. apply Permutation_middle. }
    rewrite Hperm in Hnd. rewrite Hperm in Hlive.
    assert (widget < length (widget_heap (win a)))%nat as Hw.
    { rewrite Forall_forall in Hlive. apply Hlive.
      apply elem_of_app. left. apply elem_of_app. right. left. }
    assert (widget ∉ new_widgets_list a) as Hfresh.
    { apply NoDup_app in Hnd as (Hnd1 & _ & _).
      apply NoDup_app in Hnd1 as (_ & Hdisj & _).
      intros Hin. apply (Hdisj _ Hin). left. }
    unfold sync_inv. cbn [win new_widgets_list existing_widgets].
    rewrite Hpop, map_app.
    split; [|split; [exact Hnd|]].
    + apply Forall2_app.
      * eapply Forall2_impl_in; [exact Hsh|]. intros w l Hin. apply shows_frame; [done|done|].
        unfold update_item_data, widget_at. cbv zeta. cbn [widget_heap set_widget_heap].
        apply list_lookup_total_insert_ne. intros ->. done.
      * constructor; [|constructor].
        unfold shows, update_item_data, widget_at, item_at. cbv zeta.
        cbn [widget_heap item_heap data_settings set_widget_heap].
        rewrite list_lookup_total_insert_eq by exact Hw.
        cbn [item_data text_entry w_font_size].
        split; [done|]. split; repeat case_decide; congruence.
    + unfold update_item_data. cbv zeta. cbn [widget_heap set_widget_heap].
      by rewrite length_insert.
  - unfold sync_inv. cbn [win new_widgets_list existing_widgets].
    set (n := length (widget_heap (win a))).
    assert (Forall (fun w => w <> n) (new_widgets_list a ++ map snd (existing_widgets a)))
      as Hne.
    { eapply Forall_impl; [exact Hlive|]. intros w Hw. cbn beta in Hw. unfold n. lia. }
    unfold _create_todo_widget. cbv zeta. cbn [fst snd]. fold n.
    split; [|split].
    + apply Forall2_app.
      * eapply Forall2_impl_in; [exact Hsh|]. intros w l Hin. apply shows_frame; [done|done|].
        unfold widget_at. cbn [widget_heap emit set_widget_heap].
        apply lookup_total_app_l. rewrite Forall_forall in Hlive.
        apply Hlive. apply elem_of_app. by left.
      * constructor; [|constructor].
        unfold shows, widget_at, item_at.
        cbn [widget_heap item_heap data_settings emit set_widget_heap].
        rewrite list_lookup_total_middle by done.
        done.
    + rewrite <- (app_assoc _ [n]). cbn [app].
      apply NoDup_app in Hnd as (Hn1 & Hdisj & Hn2).
      apply Forall_app in Hne as [Hne1 Hne2].
      rewrite Forall_forall in Hne1. rewrite Forall_forall in Hne2.
      apply NoDup_app. split; [done|]. split.
      * intros x Hx [->|Hin]%elem_of_cons; [by apply (Hne1 _ Hx)|by apply (Hdisj _ Hx)].
      * apply NoDup_cons. split; [|done]. intros Hin. by apply (Hne2 _ Hin).
    + cbn [widget_heap emit set_widget_heap]. rewrite length_app. cbn [length].
      rewrite <- (app_assoc _ [n]). cbn [app].
      apply Forall_app in Hlive as [Hl1 Hl2].
      apply Forall_app. split; [|apply Forall_cons; split].
      * eapply Forall_impl; [exact Hl1|]. intros w Hw. cbn beta in *. lia.
      * fold n. lia.
      * eapply Forall_impl; [exact Hl2|]. intros w Hw. cbn beta in *. lia.
Qed.

Lemma sync_inv_fold L :
  forall a L1, sync_inv a L1 -> sync_inv (fold_left load_step L a) (L1 ++ L).
Proof.
  induction L as [|it L IH]; intros a L1 Ha; cbn [fold_left].
  - by rewrite app_nil_r.
  - specialize (IH _ _ (sync_inv_step a L1 it Ha)). by rewrite <- app_assoc in IH.
Qed.

(** X7. After a reconciliation pass the view shows the document: the
    rows of [todo_widgets] are bound, in order, to the item dicts of
    [data['items']], so their ids are the ids of the items; every row
    displays the text of its item with the font size of the settings; the
    rows are distinct live objects; and the pass changed nothing of the
    document.  It asks of the state before the pass only that the rows
    shown are distinct widget objects. *)
Theorem load_items_shows_document (force : bool) (s : NoteWindow) :
  NoDup (todo_widgets s) ->
  Forall (fun w => (w < length (widget_heap s))%nat) (todo_widgets s) ->
  let t := _load_items force s in
  map (fun w => item_data (widget_at t w)) (todo_widgets t) = data_items t
  /\ map (widget_item_id t) (todo_widgets t) = ids t
  /\ Forall (fun w => text_entry (widget_at t w)
                      = item_text (item_at t (item_data (widget_at t w)))
                      /\ w_font_size (widget_at t w) = font_size (data_settings t))
       (todo_widgets t)
  /\ NoDup (todo_widgets t)
  /\ Forall (fun w => (w < length (widget_heap t))%nat) (todo_widgets t)
  /\ snapshot t = snapshot s.
Proof.
  intros Hnd Hlive t.
  pose proof (sync_inv_fold (data_items s) _ [] (sync_inv_start s Hnd Hlive)) as Hinv.
  change (sync_inv (load_loop s) (data_items s)) in Hinv.
  destruct Hinv as (Hsh & Hnd' & Hlive').
  destruct (load_items_frame force s) as (Hd & _ & Htw & Hwh & _).
  destruct (load_loop_core s) as [Hdl _].
  fold t in Hd, Htw, Hwh.
  apply data_core_eq in Hd as (Hd1 & Hd2 & _ & Hd4).
  apply data_core_eq in Hdl as (Hl1 & _ & _ & Hl4).
  set (a := load_loop s) in *. clearbody a.
  assert (Forall2 (shows t) (todo_widgets t) (data_items t)) as Hsh'.
  { rewrite Htw, Hd2. eapply Forall2_impl; [exact Hsh|]. intros w l.
    apply shows_frame; [by rewrite Hd1, Hl1|by rewrite Hd4, Hl4|].
    unfold widget_at. by rewrite Hwh. }
  clear Hsh.
  assert (map (fun w => item_data (widget_at t w)) (todo_widgets t) = data_items t) as Hbind.
  { clear -Hsh'. induction Hsh' as [|w l ws ls (H1 & _) _ IH]; [done|].
    cbn [map]. by rewrite H1, IH. }
  split; [exact Hbind|]. split.
  { unfold ids. rewrite <- Hbind, map_map. done. }
  split.
  { clear -Hsh'. induction Hsh' as [|w l ws ls (H1 & H2 & H3) _ IH]; constructor; [|done].
    by rewrite H1. }
  split; [rewrite Htw; by apply NoDup_app in Hnd' as (? & _)|].
  split; [rewrite Htw, Hwh; by apply Forall_app in Hlive' as [? _]|].
  apply snapshot_load_items.
Qed.

Lemma load_items_shows_document_witness :
  let s := delete_item_data 2
             (add_item_data (Some 1) "t" (NoteWindow_init screen_hd doc_abc)) in
  let t := _load_items false s in
  map (fun w => item_data (widget_at t w)) (todo_widgets t) = data_items t
  /\ map (widget_item_id t) (todo_widgets t) = ids t
  /\ Forall (fun w => text_entry (widget_at t w)
                      = item_text (item_at t (item_data (widget_at t w)))
                      /\ w_font_size (widget_at t w) = font_size (data_settings t))
       (todo_widgets t)
  /\ NoDup (todo_widgets t)
  /\ Forall (fun w => (w < length (widget_heap t))%nat) (todo_widgets t)
  /\ snapshot t = snapshot s.
Proof.
  apply (load_items_shows_document false
           (delete_item_data 2
              (add_item_data (Some 1) "t" (NoteWindow_init screen_hd doc_abc)))).
  - apply (bool_decide_unpack _). vm_compute. exact I.
  - apply (bool_decide_unpack _). vm_compute. exact I.
Defined.

(** The run of the witness: item 2 was deleted and an item added after
    item 1 while the view still showed rows 0, 1, 2; the pass keeps rows 0
    and 2, destroys row 1 and builds row 3 for the new item. *)
Example reconcile_after_add_and_delete :
  let s := delete_item_data 2
             (add_item_data (Some 1) "t" (NoteWindow_init screen_hd doc_abc)) in
  let t := _load_items false s in
  todo_widgets s = [0; 1; 2]%nat /\ ids s = [1; 4; 3]
  /\ todo_widgets t = [0; 3; 2]%nat
  /\ map (widget_item_id t) (todo_widgets t) = [1; 4; 3]
  /\ load_report s = mkLoadReport [3%nat] [1%nat] false.
Proof. vm_compute. repeat split; reflexivity. Qed.
